(** * BookMyShow (South Bangalore demo): the seat reservation handlers

    A shallow embedding of [bhavani7.py]: the SQLite tables the Flask
    handlers read and write, the transaction discipline of [book_seats]
    (BEGIN / commit / rollback, with the [except sqlite3.Error] handler),
    and the two read handlers [seats_for_show] and [list_bookings].

    Conventions.
    - A table is the list of its rows in rowid order.  Columns keep their
      SQL names; each table lives in a module named after it.
    - INTEGER columns and Python ints are [Z]; TEXT columns and Python
      strings are [string], compared byte-wise (SQLite's BINARY collation
      and Python's [==] agree on them).  A column holds values of its
      declared type; the columns declared without NOT NULL that no
      handler computes with are options, and [shows.price] is an integer.
    - A handler runs on a connection of its own ([get_db] opens one per
      application context and [close_connection] closes it), so what is
      not committed when the handler returns is lost.
    - The handler is modelled from line 205 on: [show_id], [customer] and
      [seats_req] are the values already read from the JSON body, and
      [seats_req] is a list of strings. *)

From Stdlib Require Import ZArith String Ascii List Sorted Permutation Lia.
From stdpp Require Import base option list gmap strings sorting pretty.

Local Open Scope Z_scope.
Local Open Scope string_scope.

(** ** The tables of [init_db] *)

Module Cinemas.
Record row := Row
  { id : Z; name : string; area : string; address : option string }.
End Cinemas.

Module Movies.
Record row := Row
  { id : Z; title : string; duration_minutes : option Z;
    language : option string }.
End Movies.

Module Shows.
Record row := Row
  { id : Z; cinema_id : Z; movie_id : Z; show_time : string;
    screen : option string; price : Z }.
End Shows.

Module Seats.
Record row := Row
  { id : Z; show_id : Z; seat_label : string; status : string }.
End Seats.

Module Bookings.
Record row := Row
  { id : Z; show_id : Z; customer_name : string; seats : string;
    total_price : Z; created_at : string }.
End Bookings.

(** [bookings_seq] is the [sqlite_sequence] entry of [bookings]: the
    table's [id] is declared AUTOINCREMENT, so SQLite remembers the
    largest rowid it ever handed out. *)
Record database := Database
  { cinemas : list Cinemas.row;
    movies : list Movies.row;
    shows : list Shows.row;
    seats : list Seats.row;
    bookings : list Bookings.row;
    bookings_seq : Z }.

Definition available : string := "available".
Definition booked : string := "booked".

(** ** SQL statements used by the handlers *)

(** [SELECT price FROM shows WHERE id=?] followed by [fetchone()]. *)
Definition select_price (show_id : Z) (d : database) : option Z :=
  Shows.price <$> head (filter (λ s, Shows.id s = show_id) (shows d)).

(** [SELECT seat_label, status FROM seats
     WHERE show_id=? AND seat_label IN (...)] followed by [fetchall()]. *)
Definition select_seats (show_id : Z) (labels : list string) (d : database)
  : list (string * string) :=
  (λ r, (Seats.seat_label r, Seats.status r)) <$>
  filter (λ r, Seats.show_id r = show_id ∧ Seats.seat_label r ∈ labels)
         (seats d).

(** [UPDATE seats SET status='booked' WHERE show_id=? AND seat_label=?]. *)
Definition book_row (show_id : Z) (label : string) (r : Seats.row)
  : Seats.row :=
  if decide (Seats.show_id r = show_id ∧ Seats.seat_label r = label)
  then Seats.Row (Seats.id r) (Seats.show_id r) (Seats.seat_label r) booked
  else r.

Definition set_seats (d : database) (l : list Seats.row) : database :=
  Database (cinemas d) (movies d) (shows d) l (bookings d) (bookings_seq d).

Definition update_seat (show_id : Z) (label : string) (d : database)
  : database :=
  set_seats d (book_row show_id label <$> seats d).

(** The rowid an AUTOINCREMENT table gives its next row: one more than
    the largest rowid that ever existed in the table. *)
Definition max_rowid (l : list Bookings.row) : Z :=
  foldr Z.max 0 (Bookings.id <$> l).

Definition next_rowid (d : database) : Z :=
  Z.max (bookings_seq d) (max_rowid (bookings d)) + 1.

(** [INSERT INTO bookings (show_id, customer_name, seats, total_price,
    created_at) VALUES (?,?,?,?,?)]; the result is [cur.lastrowid]. *)
Definition insert_booking (show_id : Z) (customer seats_csv : string)
    (total : Z) (now : string) (d : database) : Z * database :=
  let rowid := next_rowid d in
  (rowid,
   Database (cinemas d) (movies d) (shows d) (seats d)
     (bookings d ++
        [Bookings.Row rowid show_id customer seats_csv total now])
     rowid).

(** ** Connections, transactions and [sqlite3.Error] *)

(** A statement of the store may raise [sqlite3.Error] (a locked
    database, an I/O error, too many bound variables, ...).  Which one
    does is the environment's choice: [Some (n, e)] lets [n] statements
    run and makes the next one raise [e]; [None] never raises. *)
Definition fault := option (nat * string).

Record connection := Connection
  { disk : database;           (* the committed database *)
    txn : option database;     (* the open transaction's view, if any *)
    pending : fault }.

Definition view (c : connection) : database :=
  default (disk c) (txn c).

Inductive outcome (A : Type) : Type :=
| Ok (a : A)
| Raised (e : string).
Arguments Ok {A} a.
Arguments Raised {A} e.

Definition sql (A : Type) : Type := connection → outcome A * connection.

#[export] Instance sql_ret : MRet sql := λ A a c, (Ok a, c).

#[export] Instance sql_bind : MBind sql := λ A B k m c,
  match m c with
  | (Ok a, c') => k a c'
  | (Raised e, c') => (Raised e, c')
  end.

(** [try: body except sqlite3.Error as e: handler e]. *)
Definition try_except {A} (body : sql A) (handler : string → sql A) : sql A :=
  λ c, match body c with
       | (Ok a, c') => (Ok a, c')
       | (Raised e, c') => handler e c'
       end.

(** Every statement first asks the environment whether it raises. *)
Definition statement : sql unit :=
  λ c, match pending c with
       | None => (Ok tt, c)
       | Some (O, e) => (Raised e, Connection (disk c) (txn c) None)
       | Some (S n, e) => (Ok tt, Connection (disk c) (txn c) (Some (n, e)))
       end.

(** [cur.execute('BEGIN')]. *)
Definition begin : sql unit :=
  statement ;;
  ((λ c, match txn c with
         | Some _ =>
             (Raised "cannot start a transaction within a transaction", c)
         | None => (Ok tt, Connection (disk c) (Some (disk c)) (pending c))
         end) : sql unit).

(** [cur.execute] of a SELECT: reads the transaction's view. *)
Definition query {A} (q : database → A) : sql A :=
  statement ;; ((λ c, (Ok (q (view c)), c)) : sql A).

(** [cur.execute] of an UPDATE or INSERT: writes the transaction's view
    (the sqlite3 module opens a transaction first when none is open). *)
Definition execute {A} (w : database → A * database) : sql A :=
  statement ;;
  ((λ c, let '(a, d) := w (view c) in
         (Ok a, Connection (disk c) (Some d) (pending c))) : sql A).

(** [db.commit()]. *)
Definition commit : sql unit :=
  statement ;;
  ((λ c, (Ok tt, Connection (view c) None (pending c))) : sql unit).

(** [db.rollback()]. *)
Definition rollback : sql unit :=
  λ c, (Ok tt, Connection (disk c) None (pending c)).

(** ** Responses *)

Module Joined.
(** A row of the join of [list_bookings]. *)
Record row := Row
  { id : Z; show_id : Z; customer_name : string; seats : string;
    total_price : Z; created_at : string;
    movie_title : string; cinema_name : string }.
End Joined.

Inductive json : Type :=
| JError (error : string)
| JDatabaseError (details : string)
| JBooked (booking_id show_id : Z) (seats : list string) (total_price : Z)
| JSeats (show_id : Z) (seats : list (string * string))
| JBookings (rows : list Joined.row).

(** What a Flask view returns: the JSON body and the HTTP status. *)
Definition response : Type := json * Z.

(** Running a handler: a fresh connection on the database, closed when
    the handler is done (an open transaction is then dropped).  An
    exception no handler caught shows as [Raised]. *)
Definition run {A} (h : sql A) (f : fault) (d : database)
  : outcome A * database :=
  let '(o, c) := h (Connection d None f) in (o, disk c).

(** ** TEXT order: [ORDER BY] on a TEXT column *)

Definition text_le (a b : string) : Prop := String.leb a b = true.

#[export] Instance text_le_dec : RelDecision text_le :=
  λ a b, decide (String.leb a b = true).

(** ** [seats_for_show]: GET /shows/<id>/seats *)

Definition by_label : relation (string * string) :=
  λ x y, text_le x.1 y.1.

#[export] Instance by_label_dec : RelDecision by_label :=
  λ x y, decide (text_le x.1 y.1).

Definition select_show_seats (show_id : Z) (d : database)
  : list (string * string) :=
  merge_sort by_label
    ((λ r, (Seats.seat_label r, Seats.status r)) <$>
     filter (λ r, Seats.show_id r = show_id) (seats d)).

Definition seats_for_show (show_id : Z) : sql response :=
  rows ← query (select_show_seats show_id);
  mret (JSeats show_id rows, 200).

(** ** [book_seats]: POST /book *)

Definition dquote : string := String "034"%char EmptyString.

Definition seats_must_be_a_list : string :=
  "Seats must be a non-empty list like [" +:+ dquote +:+ "A1" +:+ dquote
  +:+ "," +:+ dquote +:+ "A2" +:+ dquote +:+ "]".

Definition does_not_exist (s : string) : response :=
  (JError ("Seat " +:+ s +:+ " does not exist"), 400).

Definition already_booked (s : string) : response :=
  (JError ("Seat " +:+ s +:+ " is already booked"), 409).

(** [found = {r['seat_label']: r['status'] for r in rows}]: a later row
    overwrites an earlier one with the same label. *)
Definition found_of (rows : list (string * string)) : gmap string string :=
  foldl (λ m r, <[r.1 := r.2]> m) ∅ rows.

(** The loop of lines 226-232; [Some] is the early [return]. *)
Fixpoint check_seats (found : gmap string string) (seats_req : list string)
  : sql (option response) :=
  match seats_req with
  | [] => mret None
  | s :: rest =>
      match found !! s with
      | None => rollback ;; mret (Some (does_not_exist s))
      | Some st =>
          if decide (st ≠ available)
          then rollback ;; mret (Some (already_booked s))
          else check_seats found rest
      end
  end.

(** The loop of lines 235-238. *)
Fixpoint book_each (show_id : Z) (seats_req : list string) : sql unit :=
  match seats_req with
  | [] => mret tt
  | s :: rest =>
      execute (λ d, (tt, update_seat show_id s d)) ;;
      book_each show_id rest
  end.

(** The body of the [try] block. *)
Definition book_seats_try (show_id : Z) (customer : string)
    (seats_req : list string) (now : string) : sql response :=
  begin ;;
  row ← query (select_price show_id);
  match row with
  | None => rollback ;; mret (JError "Show not found", 404)
  | Some price =>
      rows ← query (select_seats show_id seats_req);
      failed ← check_seats (found_of rows) seats_req;
      match failed with
      | Some resp => mret resp
      | None =>
          book_each show_id seats_req ;;
          let total := price * Z.of_nat (length seats_req) in
          let seats_csv := String.concat "," seats_req in
          booking_id ←
            execute (insert_booking show_id customer seats_csv total now);
          commit ;;
          mret (JBooked booking_id show_id seats_req total, 201)
      end
  end.

(** [now] is what [datetime.now().isoformat()] reads during the call. *)
Definition book_seats (show_id : Z) (customer : string)
    (seats_req : list string) (now : string) : sql response :=
  if decide (seats_req = [])
  then mret (JError seats_must_be_a_list, 400)
  else
    try_except (book_seats_try show_id customer seats_req now)
      (λ e, rollback ;; mret (JDatabaseError e, 500)).

(** ** [list_bookings]: GET /bookings *)

Definition join_bookings (d : database) : list Joined.row :=
  b ← bookings d;
  s ← filter (λ s, Bookings.show_id b = Shows.id s) (shows d);
  m ← filter (λ m, Shows.movie_id s = Movies.id m) (movies d);
  c ← filter (λ c, Shows.cinema_id s = Cinemas.id c) (cinemas d);
  [Joined.Row (Bookings.id b) (Bookings.show_id b)
     (Bookings.customer_name b) (Bookings.seats b)
     (Bookings.total_price b) (Bookings.created_at b)
     (Movies.title m) (Cinemas.name c)].

(** [ORDER BY b.created_at DESC]. *)
Definition by_created_at_desc : relation Joined.row :=
  λ x y, text_le (Joined.created_at y) (Joined.created_at x).

#[export] Instance by_created_at_desc_dec : RelDecision by_created_at_desc :=
  λ x y, decide (text_le (Joined.created_at y) (Joined.created_at x)).

Definition select_bookings (d : database) : list Joined.row :=
  merge_sort by_created_at_desc (join_bookings d).

Definition list_bookings : sql response :=
  rows ← query select_bookings;
  mret (JBookings rows, 200).

(** ** The routes of the core *)

Inductive request : Type :=
| POST_book (show_id : Z) (customer : string) (seats_req : list string)
            (now : string)
| GET_show_seats (show_id : Z)
| GET_bookings.

Definition handle (r : request) : sql response :=
  match r with
  | POST_book show_id customer seats_req now =>
      book_seats show_id customer seats_req now
  | GET_show_seats show_id => seats_for_show show_id
  | GET_bookings => list_bookings
  end.

(** ** A small database to run the handlers on *)

Module Demo.
Definition cinema : Cinemas.row :=
  Cinemas.Row 1 "Innovative Filmplex" "Jayanagar"
    (Some "12th Main, Jayanagar").
Definition movie : Movies.row :=
  Movies.Row 1 "Flight of Fancy" (Some 140) (Some "English").
Definition show : Shows.row :=
  Shows.Row 1 1 1 "2024-05-01T18:00:00" (Some "Screen 1") 150.
Definition late_show : Shows.row :=
  Shows.Row 2 1 1 "2024-05-01T21:00:00" (Some "Screen 2") 170.
Definition db : database :=
  Database [cinema] [movie] [show; late_show]
    [Seats.Row 1 1 "A1" available; Seats.Row 2 1 "A2" available;
     Seats.Row 3 1 "A3" booked; Seats.Row 4 2 "A1" available]
    [] 0.
End Demo.

(** ** What a call of [book_seats] can do *)

(** The answer of the loop of lines 226-232, read off [found]: the
    response of its first [return], or [None] when it runs through. *)
Fixpoint rejected (found : gmap string string) (seats_req : list string)
  : option response :=
  match seats_req with
  | [] => None
  | s :: rest =>
      match found !! s with
      | None => Some (does_not_exist s)
      | Some st =>
          if decide (st ≠ available) then Some (already_booked s)
          else rejected found rest
      end
  end.

(** The database after the loop of lines 235-238. *)
Definition book_all (show_id : Z) (seats_req : list string) (d : database)
  : database :=
  foldl (λ w s, update_seat show_id s w) d seats_req.

(** A row of [seats] after the loop: booked when it belongs to the show
    and carries a requested label, as it was otherwise. *)
Definition booked_by (show_id : Z) (seats_req : list string) (r : Seats.row)
  : Seats.row :=
  if decide (Seats.show_id r = show_id ∧ Seats.seat_label r ∈ seats_req)
  then Seats.Row (Seats.id r) (Seats.show_id r) (Seats.seat_label r) booked
  else r.

(** The five ways a call ends, with the response and the database it
    leaves behind. *)
Inductive book_seats_result (d : database) (show_id : Z) (customer : string)
    (seats_req : list string) (now : string) : response → database → Prop :=
| Seats_not_a_list :
    seats_req = [] →
    book_seats_result d show_id customer seats_req now
      (JError seats_must_be_a_list, 400) d
| Show_not_found :
    seats_req ≠ [] →
    select_price show_id d = None →
    book_seats_result d show_id customer seats_req now
      (JError "Show not found", 404) d
| Seat_rejected price resp :
    seats_req ≠ [] →
    select_price show_id d = Some price →
    rejected (found_of (select_seats show_id seats_req d)) seats_req
      = Some resp →
    book_seats_result d show_id customer seats_req now resp d
| Database_error e :
    seats_req ≠ [] →
    book_seats_result d show_id customer seats_req now
      (JDatabaseError e, 500) d
| Seats_booked price :
    seats_req ≠ [] →
    select_price show_id d = Some price →
    rejected (found_of (select_seats show_id seats_req d)) seats_req = None →
    book_seats_result d show_id customer seats_req now
      (JBooked (next_rowid d) show_id seats_req
         (price * Z.of_nat (length seats_req)), 201)
      (insert_booking show_id customer (String.concat "," seats_req)
         (price * Z.of_nat (length seats_req)) now
         (book_all show_id seats_req d)).2.

(** ** What SQLite and the sqlite3 module refuse on their own *)

(** The integers an INTEGER column holds and the sqlite3 module binds.
    Binding a Python int outside this range raises OverflowError, which
    is no [sqlite3.Error]: the [except] clause of [book_seats] does not
    catch it, and no handler of this file answers then.  The handlers
    are modelled for values within the range. *)
Definition int64 (z : Z) : Prop := (- 2 ^ 63 ≤ z < 2 ^ 63)%Z.

#[export] Instance int64_dec z : Decision (int64 z).
Proof. unfold int64. apply _. Defined.

(** The errors a store in working order still raises to [book_seats],
    as the fault it has in stock for the call.  [max_variables] is the
    SQLITE_MAX_VARIABLE_NUMBER of the SQLite build (999, 32766 or more;
    the other statements of the handler bind five values at most).
    - The SELECT with the IN list binds the show and every label: beyond
      the limit it raises "too many SQL variables".  It is the third
      statement of the call.
    - An AUTOINCREMENT table whose largest rowid ever is 2^63-1 takes no
      more rows: the INSERT raises "database or disk is full".  It comes
      after BEGIN, the two SELECTs and one UPDATE for each label. *)
Definition sqlite_limits (max_variables : nat) (d : database)
    (seats_req : list string) : fault :=
  if decide (max_variables < S (length seats_req))%nat
  then Some (2%nat, "too many SQL variables")
  else if decide (2 ^ 63 - 1 < next_rowid d)%Z
  then Some ((3 + length seats_req)%nat, "database or disk is full")
  else None.

(** The columns of [bookings] in a row of the join of [list_bookings]. *)
Definition booking_of (row : Joined.row) : Bookings.row :=
  Bookings.Row (Joined.id row) (Joined.show_id row)
    (Joined.customer_name row) (Joined.seats row)
    (Joined.total_price row) (Joined.created_at row).

(** ** What the schema declares about keys *)

(** [id] is the PRIMARY KEY of [shows], [movies] and [cinemas], and
    [bookings.show_id], [shows.movie_id] and [shows.cinema_id] are
    declared FOREIGN KEYs (REFERENCES) into them. *)
Definition keys_resolve (d : database) : Prop :=
  NoDup (Shows.id <$> shows d) ∧
  NoDup (Movies.id <$> movies d) ∧
  NoDup (Cinemas.id <$> cinemas d) ∧
  (∀ b, b ∈ bookings d →
        ∃ s, s ∈ shows d ∧ Shows.id s = Bookings.show_id b) ∧
  (∀ s, s ∈ shows d →
        (∃ m, m ∈ movies d ∧ Movies.id m = Shows.movie_id s) ∧
        (∃ c, c ∈ cinemas d ∧ Cinemas.id c = Shows.cinema_id s)).

(** ** The catalogue handlers: GET /cinemas, /movies, /cinemas/<id>/shows *)

Module Listed.
(** A row of the join of [shows_for_cinema]. *)
Record row := Row
  { id : Z; show_time : string; screen : option string; price : Z;
    movie_title : string }.
End Listed.

Inductive catalogue : Type :=
| JCinemas (rows : list Cinemas.row)
| JMovies (rows : list Movies.row)
| JShows (rows : list Listed.row).

(** [SELECT * FROM cinemas]. *)
Definition list_cinemas : sql (catalogue * Z) :=
  rows ← query cinemas;
  mret (JCinemas rows, 200).

(** [SELECT * FROM movies]. *)
Definition list_movies : sql (catalogue * Z) :=
  rows ← query movies;
  mret (JMovies rows, 200).

(** [FROM shows s JOIN movies m ON s.movie_id = m.id WHERE s.cinema_id = ?]. *)
Definition join_shows (cinema_id : Z) (d : database) : list Listed.row :=
  s ← filter (λ s, Shows.cinema_id s = cinema_id) (shows d);
  m ← filter (λ m, Shows.movie_id s = Movies.id m) (movies d);
  [Listed.Row (Shows.id s) (Shows.show_time s) (Shows.screen s)
     (Shows.price s) (Movies.title m)].

(** [ORDER BY s.show_time]. *)
Definition by_show_time : relation Listed.row :=
  λ x y, text_le (Listed.show_time x) (Listed.show_time y).

#[export] Instance by_show_time_dec : RelDecision by_show_time :=
  λ x y, decide (text_le (Listed.show_time x) (Listed.show_time y)).

Definition select_cinema_shows (cinema_id : Z) (d : database)
  : list Listed.row :=
  merge_sort by_show_time (join_shows cinema_id d).

Definition shows_for_cinema (cinema_id : Z) : sql (catalogue * Z) :=
  rows ← query (select_cinema_shows cinema_id);
  mret (JShows rows, 200).

(** ** [init_db]: the schema and the sample data *)

(** The [sqlite_sequence] entries of the other AUTOINCREMENT tables,
    kept beside the database.  A table that was never created and an
    empty table are the same thing here, so CREATE TABLE IF NOT EXISTS
    leaves the store as it is.  [init_db] has no handler for
    [sqlite3.Error]; it is modelled on a store that raises none, from
    its first statement to its commit. *)
Record store := Store
  { tables : database;
    cinemas_seq : Z; movies_seq : Z; shows_seq : Z; seats_seq : Z }.

(** [executemany] of an INSERT into an AUTOINCREMENT table: each row
    gets one more than the largest rowid the table ever had. *)
Definition insert_many {R T} (id_of : R → Z) (mk : Z → T → R)
    (values : list T) (seq : Z) (table : list R) : Z * list R :=
  foldl (λ '(seq, table) v,
           let rowid := Z.max seq (foldr Z.max 0 (id_of <$> table)) + 1 in
           (rowid, (table ++ [mk rowid v])%list))
        (seq, table) values.

Definition sample_cinemas : list (string * string * string) :=
  [("Innovative Filmplex", "Jayanagar", "12th Main, Jayanagar");
   ("PVR Koramangala", "Koramangala", "CMH Road");
   ("INOX BTM", "BTM Layout", "5th Stage, BTM Layout")].

Definition sample_movies : list (string * Z * string) :=
  [("Flight of Fancy", 140, "English");
   ("Love in Bengaluru", 120, "Kannada");
   ("Mystery at MG Road", 130, "Hindi")].

Definition seat_rows : list string := ["A"; "B"; "C"; "D"; "E"].

(** [f"{r}{n}"] for [r] in [seat_rows] and [n] in [range(1, 7)]. *)
Definition sample_labels : list string :=
  r ← seat_rows; n ← [1; 2; 3; 4; 5; 6]; [r +:+ pretty (n : Z)].

Section init_db.
(** [show_time_after h] is [(now + timedelta(hours=h)).isoformat()], for
    [now] the current hour as the clock of the machine gives it. *)
Variable show_time_after : Z → string.

(** The three nested loops of lines 109-114. *)
Definition sample_shows (cinema_ids movie_ids : list Z)
  : list (Z * Z * string * string * Z) :=
  c ← cinema_ids;
  im ← imap (λ i m, (Z.of_nat i, m)) movie_ids;
  t ← [0; 1; 2];
  [(c, im.2, show_time_after (2 + im.1 + t * 3),
    "Screen " +:+ pretty (t + 1), 150 + im.1 * 20)].

(** The three nested loops of lines 122-126. *)
Definition sample_seats (show_ids : list Z) : list (Z * string * string) :=
  sid ← show_ids; label ← sample_labels; [(sid, label, available)].

Definition init_db (st : store) : store :=
  let d := tables st in
  if decide (Z.of_nat (length (cinemas d)) = 0) then
    let '(cseq, cinemas') :=
      insert_many Cinemas.id
        (λ rowid v, Cinemas.Row rowid v.1.1 v.1.2 (Some v.2))
        sample_cinemas (cinemas_seq st) (cinemas d) in
    let '(mseq, movies') :=
      insert_many Movies.id
        (λ rowid v, Movies.Row rowid v.1.1 (Some v.1.2) (Some v.2))
        sample_movies (movies_seq st) (movies d) in
    let cinema_ids := Cinemas.id <$> cinemas' in
    let movie_ids := Movies.id <$> movies' in
    let '(sseq, shows') :=
      insert_many Shows.id
        (λ rowid v, Shows.Row rowid v.1.1.1.1 v.1.1.1.2 v.1.1.2
                      (Some v.1.2) v.2)
        (sample_shows cinema_ids movie_ids) (shows_seq st) (shows d) in
    let show_ids := Shows.id <$> shows' in
    let '(tseq, seats') :=
      insert_many Seats.id
        (λ rowid v, Seats.Row rowid v.1.1 v.1.2 v.2)
        (sample_seats show_ids) (seats_seq st) (seats d) in
    Store (Database cinemas' movies' shows' seats' (bookings d)
             (bookings_seq d))
      cseq mseq sseq tseq
  else st.
End init_db.

(** The rows [init_db] makes of a rowid and the values it binds. *)
Definition cinema_of (rowid : Z) (v : string * string * string)
  : Cinemas.row :=
  Cinemas.Row rowid v.1.1 v.1.2 (Some v.2).
Definition movie_of (rowid : Z) (v : string * Z * string) : Movies.row :=
  Movies.Row rowid v.1.1 (Some v.1.2) (Some v.2).
Definition show_of (rowid : Z) (v : Z * Z * string * string * Z)
  : Shows.row :=
  Shows.Row rowid v.1.1.1.1 v.1.1.1.2 v.1.1.2 (Some v.1.2) v.2.
Definition seat_of (rowid : Z) (v : Z * string * string) : Seats.row :=
  Seats.Row rowid v.1.1 v.1.2 v.2.

(** ** Requests served one after the other *)

(** Each request runs on a connection of its own, against what the
    requests before it committed, with the faults its store has in
    stock. *)
Fixpoint serve (reqs : list (request * fault)) (d : database)
  : list (outcome response) * database :=
  match reqs with
  | [] => ([], d)
  | (req, f) :: rest =>
      let '(o, d1) := run (handle req) f d in
      let '(os, d2) := serve rest d1 in
      (o :: os, d2)
  end.

(** The show and the labels of a booking request answered 201. *)
Definition winner (req : request) (o : outcome response)
  : option (Z * list string) :=
  match req, o with
  | POST_book show_id _ seats_req _, Ok (_, code) =>
      if decide (code = 201) then Some (show_id, seats_req) else None
  | _, _ => None
  end.

Fixpoint winners (reqs : list (request * fault)) (os : list (outcome response))
  : list (Z * list string) :=
  match reqs, os with
  | (req, _) :: reqs, o :: os =>
      match winner req o with
      | Some w => w :: winners reqs os
      | None => winners reqs os
      end
  | _, _ => []
  end.

(** Every seat of the show with this label is booked, and there is one. *)
Definition taken (show_id : Z) (s : string) (d : database) : Prop :=
  (∃ r, r ∈ seats d ∧ Seats.show_id r = show_id ∧ Seats.seat_label r = s) ∧
  (∀ r, r ∈ seats d → Seats.show_id r = show_id → Seats.seat_label r = s →
        Seats.status r = booked).

(** A row of [seats] after the requests answered 201 in [ws]. *)
Definition booked_by_all (ws : list (Z * list string)) (r : Seats.row)
  : Seats.row :=
  foldl (λ r w, booked_by w.1 w.2 r) r ws.

(** ** What the schema and the seed promise about a database *)

(** Keys resolve, booking identifiers are distinct, a label names one
    seat of a show, and a seat is available or booked. *)
Definition well_formed (d : database) : Prop :=
  keys_resolve d ∧
  NoDup (Bookings.id <$> bookings d) ∧
  NoDup ((λ r, (Seats.show_id r, Seats.seat_label r)) <$> seats d) ∧
  (∀ r, r ∈ seats d →
        Seats.status r = available ∨ Seats.status r = booked).

(** * Verification *)

(** ** The monad, one statement at a time *)

Lemma bind_unfold {A B} (m : sql A) (k : A → sql B) c :
  (m ≫= k) c =
  match m c with
  | (Ok a, c') => k a c'
  | (Raised e, c') => (Raised e, c')
  end.
Proof. reflexivity. Qed.

(** [stepped m d t f a d' t']: run on the connection [(d, t)] with the
    fault [f] pending, [m] either raises and leaves the connection as it
    was (only when a fault was pending), or returns [a] on [(d', t')]. *)
Definition stepped {A} (m : sql A) (d : database) (t : option database)
    (f : fault) (a : A) (d' : database) (t' : option database) : Prop :=
  (f ≠ None ∧ ∃ e, m (Connection d t f) = (Raised e, Connection d t None)) ∨
  (∃ f', (f = None → f' = None) ∧
         m (Connection d t f) = (Ok a, Connection d' t' f')).

Ltac by_fault f :=
  unfold stepped; destruct f as [[[|?n] ?e]|];
  [ left; split; [done | eexists; reflexivity]
  | right; eexists; split; [| reflexivity]; done
  | right; exists None; split; [done | reflexivity] ].

Lemma begin_stepped d f : stepped begin d None f tt d (Some d).
Proof. by_fault f. Qed.

Lemma query_stepped {A} (q : database → A) d t f :
  stepped (query q) d t f (q (default d t)) d t.
Proof. by_fault f. Qed.

Lemma execute_stepped {A} (w : database → A * database) d t f :
  stepped (execute w) d t f (w (default d t)).1 d (Some (w (default d t)).2).
Proof.
  unfold stepped, execute. rewrite bind_unfold.
  destruct f as [[[|n] e]|]; simpl.
  - left. split; [done | by exists e].
  - right. exists (Some (n, e)). split; [done|]. unfold view; simpl.
    by destruct (w (default d t)).
  - right. exists None. split; [done|]. unfold view; simpl.
    by destruct (w (default d t)).
Qed.

Lemma commit_stepped d t f : stepped commit d t f tt (default d t) None.
Proof. by_fault f. Qed.

(** ** The two loops *)

Lemma check_seats_run found seats_req d t f :
  check_seats found seats_req (Connection d t f) =
  match rejected found seats_req with
  | Some resp => (Ok (Some resp), Connection d None f)
  | None => (Ok None, Connection d t f)
  end.
Proof.
  induction seats_req as [|s rest IH]; simpl; [done|].
  destruct (found !! s) as [st|]; [|done].
  by destruct (decide (st ≠ available)).
Qed.

Lemma book_each_run show_id seats_req d w f :
  (f ≠ None ∧
   ∃ e w', book_each show_id seats_req (Connection d (Some w) f) =
           (Raised e, Connection d (Some w') None)) ∨
  (∃ f', (f = None → f' = None) ∧
         book_each show_id seats_req (Connection d (Some w) f) =
         (Ok tt, Connection d (Some (book_all show_id seats_req w)) f')).
Proof.
  revert w f. induction seats_req as [|s rest IH]; intros w f; simpl.
  - right. by exists f.
  - rewrite bind_unfold.
    destruct (execute_stepped (λ d0, (tt, update_seat show_id s d0))
                d (Some w) f) as [[Hf [e He]]|[f' [Hf He]]];
      rewrite He; simpl.
    + left. split; [done|]. by exists e, w.
    + destruct (IH (update_seat show_id s w) f')
        as [[Hf' [e' [w' He']]]|[f'' [Hf' He']]]; rewrite He'.
      * left. split; [naive_solver|]. by exists e', w'.
      * right. exists f''. split; [naive_solver | done].
Qed.

Lemma rejected_inv found seats_req resp :
  rejected found seats_req = Some resp →
  ∃ s, s ∈ seats_req ∧ (resp = does_not_exist s ∨ resp = already_booked s).
Proof.
  induction seats_req as [|s rest IH]; simpl; [done|].
  destruct (found !! s) as [st|].
  - destruct (decide (st ≠ available)).
    + intros [= <-]. exists s. split; [left | by right].
    + intros [s' [? ?]]%IH. exists s'. split; [by right | done].
  - intros [= <-]. exists s. split; [left | by left].
Qed.

Lemma rejected_status found seats_req resp :
  rejected found seats_req = Some resp → resp.2 = 400 ∨ resp.2 = 409.
Proof. intros [s [_ [-> | ->]]]%rejected_inv; [by left | by right]. Qed.

(** ** One call of [book_seats], whatever the store does *)

Lemma book_seats_try_run show_id customer seats_req now d f :
  seats_req ≠ [] →
  (f ≠ None ∧
   ∃ e t, book_seats_try show_id customer seats_req now
            (Connection d None f) = (Raised e, Connection d t None)) ∨
  (∃ resp d' f',
     book_seats_try show_id customer seats_req now (Connection d None f)
       = (Ok resp, Connection d' None f') ∧
     book_seats_result d show_id customer seats_req now resp d' ∧
     resp.2 ≠ 500).
Proof.
  intros Hne. unfold book_seats_try. rewrite bind_unfold.
  destruct (begin_stepped d f) as [[Hf [e He]]|[f1 [Hf1 He]]]; rewrite He.
  { left. split; [done|]. by exists e, None. }
  rewrite bind_unfold.
  destruct (query_stepped (select_price show_id) d (Some d) f1)
    as [[Hf [e Hq]]|[f2 [Hf2 Hq]]]; rewrite Hq.
  { left. split; [naive_solver|]. by exists e, (Some d). }
  simpl. destruct (select_price show_id d) as [price|] eqn:Hprice.
  2:{ right. exists (JError "Show not found", 404), d, f2.
      split; [done|]. split; [by constructor | done]. }
  rewrite bind_unfold.
  destruct (query_stepped (select_seats show_id seats_req) d (Some d) f2)
    as [[Hf [e Hs]]|[f3 [Hf3 Hs]]]; rewrite Hs.
  { left. split; [naive_solver|]. by exists e, (Some d). }
  simpl. rewrite bind_unfold, check_seats_run.
  destruct (rejected _ seats_req) as [resp|] eqn:Hrej.
  { right. exists resp, d, f3. split; [done|].
    split; [by econstructor|].
    destruct (rejected_status _ _ _ Hrej) as [-> | ->]; done. }
  rewrite bind_unfold.
  destruct (book_each_run show_id seats_req d d f3)
    as [[Hf [e [w Hb]]]|[f4 [Hf4 Hb]]]; rewrite Hb.
  { left. split; [naive_solver|]. by exists e, (Some w). }
  rewrite bind_unfold.
  set (total := price * Z.of_nat (length seats_req)).
  set (csv := String.concat "," seats_req).
  destruct (execute_stepped (insert_booking show_id customer csv total now)
              d (Some (book_all show_id seats_req d)) f4)
    as [[Hf [e Hi]]|[f5 [Hf5 Hi]]]; cbn [from_option id] in Hi; rewrite Hi.
  { left. split; [naive_solver|]. by eexists e, (Some _). }
  rewrite bind_unfold.
  destruct (commit_stepped d
              (Some (insert_booking show_id customer csv total now
                       (book_all show_id seats_req d)).2) f5)
    as [[Hf [e Hc]]|[f6 [Hf6 Hc]]]; cbn [from_option id] in Hc; rewrite Hc.
  { left. split; [naive_solver|]. by eexists e, (Some _). }
  right. eexists _, _, f6. split; [reflexivity|]. split; [|done].
  assert (next_rowid (book_all show_id seats_req d) = next_rowid d) as Hid.
  { unfold book_all. clear. revert d.
    induction seats_req as [|s rest IH]; intros d; simpl; [done|].
    by rewrite IH. }
  change (insert_booking show_id customer csv total now
            (book_all show_id seats_req d)).1
    with (next_rowid (book_all show_id seats_req d)).
  rewrite Hid. by constructor.
Qed.

Lemma book_seats_run show_id customer seats_req now f d :
  ∃ resp d',
    run (book_seats show_id customer seats_req now) f d = (Ok resp, d') ∧
    book_seats_result d show_id customer seats_req now resp d' ∧
    (f = None → resp.2 ≠ 500).
Proof.
  unfold run, book_seats. destruct (decide (seats_req = [])) as [->|Hne].
  { exists (JError seats_must_be_a_list, 400), d.
    split; [done|]. split; [by constructor | done]. }
  unfold try_except.
  destruct (book_seats_try_run show_id customer seats_req now d f Hne)
    as [[Hf [e [t He]]]|[resp [d' [f' [He [Hres Hcode]]]]]]; rewrite He.
  - exists (JDatabaseError e, 500), d.
    split; [done|]. split; [by constructor | done].
  - exists resp, d'. by split.
Qed.

(** ** What the statements do to the tables *)

Lemma book_all_cons show_id s rest d :
  book_all show_id (s :: rest) d =
  book_all show_id rest (update_seat show_id s d).
Proof. reflexivity. Qed.

Lemma book_all_frame show_id seats_req d :
  cinemas (book_all show_id seats_req d) = cinemas d ∧
  movies (book_all show_id seats_req d) = movies d ∧
  shows (book_all show_id seats_req d) = shows d ∧
  bookings (book_all show_id seats_req d) = bookings d ∧
  bookings_seq (book_all show_id seats_req d) = bookings_seq d.
Proof.
  revert d. induction seats_req as [|s rest IH]; intros d; [done|].
  rewrite book_all_cons.
  destruct (IH (update_seat show_id s d)) as (-> & -> & -> & -> & ->).
  done.
Qed.

Lemma next_rowid_book_all show_id seats_req d :
  next_rowid (book_all show_id seats_req d) = next_rowid d.
Proof.
  unfold next_rowid.
  by destruct (book_all_frame show_id seats_req d) as (_ & _ & _ & -> & ->).
Qed.

Lemma bookings_insert_booking show_id customer csv total now seats_req d :
  bookings (insert_booking show_id customer csv total now
              (book_all show_id seats_req d)).2 =
  (bookings d ++ [Bookings.Row (next_rowid d) show_id customer csv total now])
    %list.
Proof.
  simpl. rewrite next_rowid_book_all.
  by destruct (book_all_frame show_id seats_req d) as (_ & _ & _ & -> & _).
Qed.

Lemma booked_by_cons show_id s rest r :
  booked_by show_id rest (book_row show_id s r) =
  booked_by show_id (s :: rest) r.
Proof.
  unfold booked_by, book_row. destruct r as [i sh lbl st]; simpl.
  destruct (decide (sh = show_id ∧ lbl = s)) as [[-> ->]|Hs]; simpl.
  - rewrite (decide_True (P := _ ∧ s ∈ s :: rest)) by (split; [done|left]).
    by destruct (decide (_ ∧ s ∈ rest)).
  - destruct (decide (sh = show_id ∧ lbl ∈ rest)) as [[-> Hin]|Hr].
    + by rewrite decide_True by (split; [done | by right]).
    + rewrite decide_False; [done|].
      intros [-> [->|Hin]%elem_of_cons]; naive_solver.
Qed.

Lemma seats_book_all show_id seats_req d :
  seats (book_all show_id seats_req d) =
  booked_by show_id seats_req <$> seats d.
Proof.
  revert d. induction seats_req as [|s rest IH]; intros d.
  - simpl. symmetry. erewrite list_fmap_ext; [apply list_fmap_id|].
    intros i r _. unfold booked_by. rewrite decide_False; [done|].
    intros [_ Hin]. by apply elem_of_nil in Hin.
  - rewrite book_all_cons, IH. simpl. rewrite <- list_fmap_compose.
    apply list_fmap_ext. intros i r _. apply booked_by_cons.
Qed.

Lemma max_rowid_fresh l b : b ∈ l → (Bookings.id b ≤ max_rowid l)%Z.
Proof.
  unfold max_rowid. induction 1 as [b l|b b' l _ IH]; csimpl; lia.
Qed.

Lemma next_rowid_fresh d b :
  b ∈ bookings d → (Bookings.id b < next_rowid d)%Z.
Proof. intros H%max_rowid_fresh. unfold next_rowid. lia. Qed.

(** ** The dictionary [found] *)

Lemma found_of_snoc rows r :
  found_of (rows ++ [r]) = <[r.1 := r.2]> (found_of rows).
Proof. unfold found_of. by rewrite foldl_app. Qed.

Lemma found_of_None rows s : found_of rows !! s = None ↔ s ∉ rows.*1.
Proof.
  induction rows as [|r rows IH] using rev_ind.
  - split; [intros _ H; by apply elem_of_nil in H | done].
  - rewrite found_of_snoc, fmap_app, lookup_insert_None, IH. simpl.
    rewrite not_elem_of_app, list_elem_of_singleton.
    split; (intros [? ?]; split; [done | congruence]).
Qed.

Lemma found_of_Some rows s st : found_of rows !! s = Some st → (s, st) ∈ rows.
Proof.
  induction rows as [|r rows IH] using rev_ind; [done|].
  rewrite found_of_snoc, lookup_insert_Some, elem_of_app.
  intros [[<- <-]|[_ H]]; [right | left; auto].
  destruct r. apply list_elem_of_singleton. done.
Qed.

Lemma elem_of_select_seats show_id labels d s st :
  (s, st) ∈ select_seats show_id labels d ↔
  ∃ r, r ∈ seats d ∧ Seats.show_id r = show_id ∧ Seats.seat_label r = s ∧
       Seats.status r = st ∧ s ∈ labels.
Proof.
  unfold select_seats. rewrite list_elem_of_fmap. split.
  - intros [r [[= -> ->] [[? ?] ?]%list_elem_of_filter]]. by exists r.
  - intros [r (? & ? & <- & <- & ?)]. exists r.
    split; [done|]. by apply list_elem_of_filter.
Qed.

Section found.
Context (show_id : Z) (seats_req : list string) (d : database).
Let found := found_of (select_seats show_id seats_req d).

(** A label no seat of the show carries is not in [found]. *)
Lemma found_missing s :
  (∀ r, r ∈ seats d → Seats.show_id r = show_id →
        Seats.seat_label r ≠ s) →
  found !! s = None.
Proof.
  intros Hno. apply found_of_None. intros [[s' st] [-> Hin]]%list_elem_of_fmap.
  apply elem_of_select_seats in Hin as [r (? & ? & ? & _)]. naive_solver.
Qed.

(** A requested label some seat of the show carries is in [found], with
    the status of one of the seats that carry it. *)
Lemma found_present s r :
  s ∈ seats_req → r ∈ seats d → Seats.show_id r = show_id →
  Seats.seat_label r = s →
  ∃ r', r' ∈ seats d ∧ Seats.show_id r' = show_id ∧
        Seats.seat_label r' = s ∧ found !! s = Some (Seats.status r').
Proof.
  intros Hs Hr Hsh Hl.
  destruct (found !! s) as [st|] eqn:Hf.
  - apply found_of_Some, elem_of_select_seats in Hf
      as [r' (? & ? & ? & <- & _)]. by exists r'.
  - apply found_of_None in Hf. destruct Hf.
    apply list_elem_of_fmap. exists (s, Seats.status r). split; [done|].
    apply elem_of_select_seats. by exists r.
Qed.

Lemma found_available s :
  s ∈ seats_req →
  (∃ r, r ∈ seats d ∧ Seats.show_id r = show_id ∧ Seats.seat_label r = s) →
  (∀ r, r ∈ seats d → Seats.show_id r = show_id → Seats.seat_label r = s →
        Seats.status r = available) →
  found !! s = Some available.
Proof.
  intros Hs [r (Hr & Hsh & Hl)] Hall.
  destruct (found_present s r Hs Hr Hsh Hl) as [r' (? & ? & ? & ->)].
  f_equal. by apply Hall.
Qed.

Lemma found_taken s :
  s ∈ seats_req →
  (∃ r, r ∈ seats d ∧ Seats.show_id r = show_id ∧ Seats.seat_label r = s) →
  (∀ r, r ∈ seats d → Seats.show_id r = show_id → Seats.seat_label r = s →
        Seats.status r ≠ available) →
  ∃ st, found !! s = Some st ∧ st ≠ available.
Proof.
  intros Hs [r (Hr & Hsh & Hl)] Hall.
  destruct (found_present s r Hs Hr Hsh Hl) as [r' (? & ? & ? & ->)].
  eexists. split; [done|]. by apply Hall.
Qed.
End found.

(** ** The validation loop, read off [found] *)

Lemma rejected_None found seats_req :
  (∀ s, s ∈ seats_req → found !! s = Some available) →
  rejected found seats_req = None.
Proof.
  induction seats_req as [|s rest IH]; intros H; simpl; [done|].
  rewrite (H s) by left. rewrite decide_False by (by intros []).
  apply IH. intros s' Hs'. apply H. by right.
Qed.

Lemma rejected_None_inv found seats_req s :
  rejected found seats_req = None → s ∈ seats_req →
  found !! s = Some available.
Proof.
  induction seats_req as [|s' rest IH]; simpl; [by intros _ ?%elem_of_nil|].
  destruct (found !! s') as [st|] eqn:Hf; [|done].
  destruct (decide (st ≠ available)) as [|Heq%dec_stable]; [done|].
  intros Hrest [->|Hin]%elem_of_cons; [by rewrite Hf, Heq | auto].
Qed.

Lemma rejected_skip found pre rest :
  (∀ s, s ∈ pre → found !! s = Some available) →
  rejected found (pre ++ rest) = rejected found rest.
Proof.
  induction pre as [|s pre IH]; intros H; simpl; [done|].
  rewrite (H s) by left. rewrite decide_False by (by intros []).
  apply IH. intros s' Hs'. apply H. by right.
Qed.

(** ** TEXT order is a total preorder *)

Lemma ascii_compare_refl a : Ascii.compare a a = Eq.
Proof. apply N.compare_refl. Qed.

Lemma ascii_compare_Lt_trans a b c :
  Ascii.compare a b = Lt → Ascii.compare b c = Lt → Ascii.compare a c = Lt.
Proof.
  unfold Ascii.compare. rewrite !N.compare_lt_iff. apply N.lt_trans.
Qed.

Lemma string_compare_not_Gt_trans a b c :
  String.compare a b ≠ Gt → String.compare b c ≠ Gt →
  String.compare a c ≠ Gt.
Proof.
  revert b c. induction a as [|x a IH]; intros [|y b] [|z c]; simpl; try done.
  destruct (Ascii.compare x y) eqn:Hxy; [| |done].
  - apply Ascii.compare_eq_iff in Hxy as ->.
    destruct (Ascii.compare y z); [apply IH | done | done].
  - destruct (Ascii.compare y z) eqn:Hyz; [| |done]; intros _ _.
    + apply Ascii.compare_eq_iff in Hyz as <-. by rewrite Hxy.
    + by rewrite (ascii_compare_Lt_trans x y z).
Qed.

Lemma text_le_compare a b : text_le a b ↔ String.compare a b ≠ Gt.
Proof. unfold text_le, String.leb. by destruct (String.compare a b). Qed.

#[export] Instance text_le_refl : Reflexive text_le.
Proof.
  intros a. apply text_le_compare.
  induction a as [|x a IH]; simpl; [done|]. by rewrite ascii_compare_refl.
Qed.

#[export] Instance text_le_trans : Transitive text_le.
Proof.
  intros a b c. rewrite !text_le_compare. apply string_compare_not_Gt_trans.
Qed.

#[export] Instance text_le_total : Total text_le.
Proof. intros a b. apply String.leb_total. Qed.

#[export] Instance by_label_trans : Transitive by_label.
Proof. intros x y z. unfold by_label. apply text_le_trans. Qed.

#[export] Instance by_label_total : Total by_label.
Proof. intros x y. unfold by_label. apply text_le_total. Qed.

#[export] Instance by_created_at_desc_trans : Transitive by_created_at_desc.
Proof. intros x y z H1 H2. unfold by_created_at_desc in *. by etrans. Qed.

#[export] Instance by_created_at_desc_total : Total by_created_at_desc.
Proof. intros x y. unfold by_created_at_desc. apply text_le_total. Qed.

(** ** The read handlers *)

Lemma seats_for_show_run show_id f d :
  run (seats_for_show show_id) f d =
    (Ok (JSeats show_id (select_show_seats show_id d), 200), d) ∨
  (f ≠ None ∧ ∃ e, run (seats_for_show show_id) f d = (Raised e, d)).
Proof.
  unfold run, seats_for_show. rewrite bind_unfold.
  destruct (query_stepped (select_show_seats show_id) d None f)
    as [[Hf [e He]]|[f' [Hf He]]]; rewrite He.
  - right. split; [done|]. by exists e.
  - by left.
Qed.

Lemma list_bookings_run f d :
  run list_bookings f d = (Ok (JBookings (select_bookings d), 200), d) ∨
  (f ≠ None ∧ ∃ e, run list_bookings f d = (Raised e, d)).
Proof.
  unfold run, list_bookings. rewrite bind_unfold.
  destruct (query_stepped select_bookings d None f)
    as [[Hf [e He]]|[f' [Hf He]]]; rewrite He.
  - right. split; [done|]. by exists e.
  - by left.
Qed.

(** ** The catalogue lookup *)

Lemma select_price_Some show_id d price :
  select_price show_id d = Some price →
  ∃ sh, sh ∈ shows d ∧ Shows.id sh = show_id ∧ Shows.price sh = price.
Proof.
  unfold select_price.
  destruct (filter _ (shows d)) as [|sh l] eqn:Hf; [done|].
  intros [= <-]. exists sh.
  assert (sh ∈ filter (λ s, Shows.id s = show_id) (shows d)) as Hin
    by (rewrite Hf; left).
  apply list_elem_of_filter in Hin as [? ?]. done.
Qed.

Lemma select_price_is_Some show_id d sh :
  sh ∈ shows d → Shows.id sh = show_id →
  ∃ price, select_price show_id d = Some price.
Proof.
  intros Hin Hid. unfold select_price.
  destruct (filter _ (shows d)) as [|sh' l] eqn:Hf; [|by eexists].
  assert (sh ∈ filter (λ s, Shows.id s = show_id) (shows d)) as Hin'
    by (by apply list_elem_of_filter).
  rewrite Hf in Hin'. by apply elem_of_nil in Hin'.
Qed.

(** ** Every call answers, and leaves one of two databases *)

Lemma book_seats_always_answers show_id customer seats_req now f d :
  ∃ resp d',
    run (book_seats show_id customer seats_req now) f d = (Ok resp, d').
Proof.
  destruct (book_seats_run show_id customer seats_req now f d)
    as (resp & d' & H & _). by exists resp, d'.
Qed.

Lemma book_seats_result_code d show_id customer seats_req now resp d' :
  book_seats_result d show_id customer seats_req now resp d' →
  resp.2 = 201 ∨ d' = d.
Proof. destruct 1; auto. Qed.

Lemma book_seats_result_seats d show_id customer seats_req now resp d' :
  book_seats_result d show_id customer seats_req now resp d' →
  cinemas d' = cinemas d ∧ movies d' = movies d ∧ shows d' = shows d ∧
  (seats d' = seats d ∨ seats d' = booked_by show_id seats_req <$> seats d).
Proof.
  destruct 1; try by auto.
  destruct (book_all_frame show_id seats_req d) as (Hc & Hm & Hs & _).
  simpl. rewrite Hc, Hm, Hs, seats_book_all. auto.
Qed.

(** ** The routes and the seats table *)

(** What any route of the core leaves in [seats]. *)
Lemma handle_seats req f d :
  seats (run (handle req) f d).2 = seats d ∨
  ∃ show_id seats_req,
    seats (run (handle req) f d).2 = booked_by show_id seats_req <$> seats d.
Proof.
  destruct req as [show_id customer seats_req now|show_id|]; simpl.
  - destruct (book_seats_run show_id customer seats_req now f d)
      as (resp & d' & Hrun & Hres & _).
    rewrite Hrun. simpl.
    destruct (book_seats_result_seats _ _ _ _ _ _ _ Hres)
      as (_ & _ & _ & [-> | ->]); [by left|].
    right. by exists show_id, seats_req.
  - left. by destruct (seats_for_show_run show_id f d) as [->|[_ [e ->]]].
  - left. by destruct (list_bookings_run f d) as [->|[_ [e ->]]].
Qed.

(** ** The join of [list_bookings] *)

Lemma filter_none {A} (P : A → Prop) `{∀ x, Decision (P x)} (l : list A) :
  (∀ z, z ∈ l → ¬ P z) → filter P l = [].
Proof.
  induction l as [|y l IH]; intros Hno; [done|].
  rewrite filter_cons_False by (apply Hno; left).
  apply IH. intros z Hz. apply Hno. by right.
Qed.

Lemma filter_key_unique {A} (key : A → Z) (l : list A) (k : Z) (x : A) :
  NoDup (key <$> l) → x ∈ l → key x = k →
  filter (λ y, k = key y) l = [x].
Proof.
  intros Hnd Hin <-. induction l as [|y l IH]; [by apply elem_of_nil in Hin|].
  rewrite fmap_cons in Hnd. apply NoDup_cons in Hnd as [Hy Hnd].
  apply elem_of_cons in Hin as [->|Hin].
  - rewrite filter_cons_True by done. f_equal.
    apply filter_none. intros z Hz Heq.
    apply Hy. rewrite Heq. by apply list_elem_of_fmap_2.
  - rewrite filter_cons_False; [by apply IH|].
    intros Heq. apply Hy. rewrite <- Heq. by apply list_elem_of_fmap_2.
Qed.

Lemma join_bookings_ids d :
  keys_resolve d →
  Joined.id <$> join_bookings d = Bookings.id <$> bookings d.
Proof.
  intros (Hs & Hm & Hc & Hb & Hsh). unfold join_bookings.
  induction (bookings d) as [|b bs IH]; [done|].
  rewrite bind_cons, fmap_app, fmap_cons, IH
    by (intros b' ?; apply Hb; by right).
  f_equal.
  destruct (Hb b) as [s [Hin Hid]]; [left|].
  rewrite (filter_key_unique Shows.id (shows d) _ s Hs Hin Hid).
  destruct (Hsh s Hin) as [[m [Hmin Hmid]] [c [Hcin Hcid]]].
  rewrite bind_singleton.
  rewrite (filter_key_unique Movies.id (movies d) _ m Hm Hmin Hmid).
  rewrite bind_singleton.
  rewrite (filter_key_unique Cinemas.id (cinemas d) _ c Hc Hcin Hcid).
  done.
Qed.

Lemma elem_of_join_bookings d row :
  row ∈ join_bookings d ↔
  ∃ b s m c,
    b ∈ bookings d ∧ s ∈ shows d ∧ m ∈ movies d ∧ c ∈ cinemas d ∧
    Bookings.show_id b = Shows.id s ∧ Shows.movie_id s = Movies.id m ∧
    Shows.cinema_id s = Cinemas.id c ∧
    row = Joined.Row (Bookings.id b) (Bookings.show_id b)
            (Bookings.customer_name b) (Bookings.seats b)
            (Bookings.total_price b) (Bookings.created_at b)
            (Movies.title m) (Cinemas.name c).
Proof.
  unfold join_bookings. rewrite list_elem_of_bind. split.
  - intros (b & Hrow & Hb).
    apply list_elem_of_bind in Hrow as (s & Hrow & [? ?]%list_elem_of_filter).
    apply list_elem_of_bind in Hrow as (m & Hrow & [? ?]%list_elem_of_filter).
    apply list_elem_of_bind in Hrow as (c & Hrow & [? ?]%list_elem_of_filter).
    apply list_elem_of_singleton in Hrow. by exists b, s, m, c.
  - intros (b & s & m & c & ? & ? & ? & ? & ? & ? & ? & ->).
    exists b. split; [|done].
    apply list_elem_of_bind. exists s.
    split; [|by apply list_elem_of_filter].
    apply list_elem_of_bind. exists m.
    split; [|by apply list_elem_of_filter].
    apply list_elem_of_bind. exists c.
    split; [|by apply list_elem_of_filter].
    by apply list_elem_of_singleton.
Qed.

(** Where the keys resolve, the join has one row for each booking, in
    the order of the table, with the booking's columns. *)
Lemma join_bookings_records d :
  keys_resolve d → booking_of <$> join_bookings d = bookings d.
Proof.
  intros (Hs & Hm & Hc & Hb & Hsh). unfold join_bookings.
  induction (bookings d) as [|b bs IH]; [done|].
  rewrite bind_cons, fmap_app, IH by (intros b' ?; apply Hb; by right).
  destruct (Hb b) as [s [Hin Hid]]; [left|].
  rewrite (filter_key_unique Shows.id (shows d) _ s Hs Hin Hid).
  destruct (Hsh s Hin) as [[m [Hmin Hmid]] [c [Hcin Hcid]]].
  rewrite bind_singleton.
  rewrite (filter_key_unique Movies.id (movies d) _ m Hm Hmin Hmid).
  rewrite bind_singleton.
  rewrite (filter_key_unique Cinemas.id (cinemas d) _ c Hc Hcin Hcid).
  by destruct b.
Qed.

(** ** The rejections, on a store that raises no error *)

Lemma select_price_None show_id d :
  (∀ sh, sh ∈ shows d → Shows.id sh ≠ show_id) →
  select_price show_id d = None.
Proof.
  intros Hno. destruct (select_price show_id d) as [price|] eqn:Hp; [|done].
  apply select_price_Some in Hp as [sh (? & ? & _)]. naive_solver.
Qed.

Lemma book_seats_no_show show_id customer seats_req now d :
  seats_req ≠ [] → select_price show_id d = None →
  run (book_seats show_id customer seats_req now) None d
    = (Ok (JError "Show not found", 404), d).
Proof.
  intros Hne Hp.
  destruct (book_seats_run show_id customer seats_req now None d)
    as (resp & d' & -> & Hres & Hcode).
  specialize (Hcode eq_refl).
  destruct Hres; try done; congruence.
Qed.

Lemma book_seats_rejects show_id customer seats_req now d price resp :
  select_price show_id d = Some price →
  rejected (found_of (select_seats show_id seats_req d)) seats_req
    = Some resp →
  run (book_seats show_id customer seats_req now) None d = (Ok resp, d).
Proof.
  intros Hp Hrej.
  destruct (book_seats_run show_id customer seats_req now None d)
    as (resp' & d' & -> & Hres & Hcode).
  specialize (Hcode eq_refl).
  destruct Hres as [->| | | |]; try done; congruence.
Qed.

(** ** One call after another *)

(** The handlers are run one at a time here.  Calls that overlap in
    time, each on a connection of its own, see of each other what
    SQLite's locking lets them see; that is not part of [bhavani7.py]
    and not of this development. *)

Lemma booked_by_key show_id seats_req r :
  Seats.show_id (booked_by show_id seats_req r) = Seats.show_id r ∧
  Seats.seat_label (booked_by show_id seats_req r) = Seats.seat_label r.
Proof. unfold booked_by. by destruct (decide _). Qed.

Lemma book_seats_result_booked d show_id customer seats_req now resp d' :
  book_seats_result d show_id customer seats_req now resp d' →
  resp.2 = 201 →
  rejected (found_of (select_seats show_id seats_req d)) seats_req = None ∧
  seats d' = booked_by show_id seats_req <$> seats d.
Proof.
  destruct 1 as [| |price resp ? ? Hrej| |]; try done.
  - intros Hcode. by destruct (rejected_status _ _ _ Hrej) as [Hst|Hst];
      rewrite Hst in Hcode.
  - intros _. split; [done|]. simpl. apply seats_book_all.
Qed.

(** X1. Served one after the other, two calls never both book a seat:
    once a call has booked [s] for the show, a later call that asks for
    [s] is refused, whatever else it asks for, and writes nothing. *)
Lemma later_call_for_booked_seat_is_refused
    show_id s customer1 seats1 now1 f1 d resp1 d1
    customer2 seats2 now2 f2 resp2 d2 :
  run (book_seats show_id customer1 seats1 now1) f1 d = (Ok resp1, d1) →
  resp1.2 = 201 →
  s ∈ seats1 → s ∈ seats2 →
  run (book_seats show_id customer2 seats2 now2) f2 d1 = (Ok resp2, d2) →
  resp2.2 ≠ 201 ∧ d2 = d1.
Proof.
  intros Hrun1 Hcode1 Hs1 Hs2 Hrun2.
  destruct (book_seats_run show_id customer1 seats1 now1 f1 d)
    as (r1 & d1' & Hrun1' & Hres1 & _).
  rewrite Hrun1 in Hrun1'. injection Hrun1' as <- <-.
  destruct (book_seats_result_booked _ _ _ _ _ _ _ Hres1 Hcode1)
    as [Hrej1 Hseats1].
  pose proof (rejected_None_inv _ _ s Hrej1 Hs1) as Hfound1.
  apply found_of_Some, elem_of_select_seats in Hfound1
    as [r (Hr & Hshow & Hlabel & _)].
  destruct (found_taken show_id seats2 d1 s Hs2) as [st [Hst Hne]].
  { exists (booked_by show_id seats1 r).
    rewrite Hseats1. split; [by apply list_elem_of_fmap_2|].
    by destruct (booked_by_key show_id seats1 r) as [-> ->]. }
  { rewrite Hseats1. intros r' [r0 [-> _]]%list_elem_of_fmap.
    destruct (booked_by_key show_id seats1 r0) as [-> ->]. intros ? Hl.
    unfold booked_by. rewrite decide_True; [done|]. by rewrite Hl. }
  destruct (book_seats_run show_id customer2 seats2 now2 f2 d1)
    as (r2 & d2' & Hrun2' & Hres2 & _).
  rewrite Hrun2 in Hrun2'. injection Hrun2' as <- <-.
  destruct (decide (resp2.2 = 201)) as [Hcode2|Hcode2].
  - destruct (book_seats_result_booked _ _ _ _ _ _ _ Hres2 Hcode2)
      as [Hrej2 _].
    pose proof (rejected_None_inv _ _ s Hrej2 Hs2) as Hfound2. congruence.
  - split; [done|].
    by destruct (book_seats_result_code _ _ _ _ _ _ _ Hres2).
Qed.

(** * The claims *)

(** C2. A call of [book_seats] that answers with a failure (any status
    other than 201: the 400s, 404, 409, and 500 after a storage error)
    leaves the whole database, seats and bookings included, as it was.
    ([book_seats_always_answers]: every call does answer.) *)
Theorem book_seats_failure_rolls_back
    show_id customer seats_req now f d resp d' :
  run (book_seats show_id customer seats_req now) f d = (Ok resp, d') →
  resp.2 ≠ 201 →
  d' = d.
Proof.
  intros Hrun Hcode.
  destruct (book_seats_run show_id customer seats_req now f d)
    as (resp0 & d0 & Hrun0 & Hres & _).
  rewrite Hrun in Hrun0. injection Hrun0 as <- <-.
  by destruct (book_seats_result_code _ _ _ _ _ _ _ Hres).
Qed.

(** The store raises on the second UPDATE, after A1 was flipped inside
    the transaction: the answer is 500 and nothing was written. *)
Lemma book_seats_failure_rolls_back_witness :
  (run (book_seats 1 "Asha" ["A1"; "A2"] "2024-05-01T10:00:00")
       (Some (4%nat, "database is locked")) Demo.db).2 = Demo.db.
Proof.
  apply (book_seats_failure_rolls_back 1 "Asha" ["A1"; "A2"]
           "2024-05-01T10:00:00" (Some (4%nat, "database is locked"))
           Demo.db (JDatabaseError "database is locked", 500)).
  - vm_compute. reflexivity.
  - simpl. lia.
Defined.




(** On a build whose limit is 999 bound variables, a request that
    names the available seat A1 999 times is one variable too long. *)
Example long_label_list_is_refused :
  run (book_seats 1 "Asha" (replicate 999 "A1") "2024-05-01T10:00:00")
      (sqlite_limits 999 Demo.db (replicate 999 "A1")) Demo.db
    = (Ok (JDatabaseError "too many SQL variables", 500), Demo.db).
Proof. vm_compute. reflexivity. Qed.

(** C4, as the code has it.  [book_seats] answers 400 with the message
    about a non-empty list exactly when the seat list is empty, and it
    does so before the store is touched: the database is as it was,
    whatever the show and whatever the store would have done.  A list
    that repeats a label is not malformed input to the code. *)
Theorem invalid_input_iff_empty show_id customer seats_req now f d :
  (seats_req = [] →
   run (book_seats show_id customer seats_req now) f d
     = (Ok (JError seats_must_be_a_list, 400), d)) ∧
  (seats_req ≠ [] →
   (run (book_seats show_id customer seats_req now) f d).1
     ≠ Ok (JError seats_must_be_a_list, 400)).
Proof.
  split; [by intros ->|]. intros Hne.
  destruct (book_seats_run show_id customer seats_req now f d)
    as (resp & d' & -> & Hres & _).
  simpl. destruct Hres as [| |price resp ? ? Hrej| |]; try done.
  apply rejected_inv in Hrej as [s [_ [-> | ->]]]; intros [= Hmsg];
    cbv in Hmsg; discriminate Hmsg.
Qed.

Lemma invalid_input_iff_empty_witness :
  run (book_seats 9 "Ravi" [] "2024-05-01T10:00:00")
      (Some (0%nat, "database is locked")) Demo.db
    = (Ok (JError seats_must_be_a_list, 400), Demo.db) ∧
  (run (book_seats 1 "Ravi" ["A1"; "A1"] "2024-05-01T10:00:00")
     None Demo.db).1 ≠ Ok (JError seats_must_be_a_list, 400).
Proof.
  split.
  - by apply (proj1 (invalid_input_iff_empty 9 "Ravi" []
                       "2024-05-01T10:00:00"
                       (Some (0%nat, "database is locked")) Demo.db)).
  - by apply (proj2 (invalid_input_iff_empty 1 "Ravi" ["A1"; "A1"]
                       "2024-05-01T10:00:00" None Demo.db)).
Defined.

(** C4 fails on a repeated label: with A1 available, the request
    ["A1","A1"] is answered 201, A1 is flipped to booked, and the booking
    is charged for two seats. *)
Lemma repeated_label_is_booked :
  (run (book_seats 1 "Ravi" ["A1"; "A1"] "2024-05-01T10:00:00")
     None Demo.db).1 = Ok (JBooked 1 1 ["A1"; "A1"] 300, 201) ∧
  seats Demo.db !! 0%nat = Some (Seats.Row 1 1 "A1" "available") ∧
  seats (run (book_seats 1 "Ravi" ["A1"; "A1"] "2024-05-01T10:00:00")
           None Demo.db).2 !! 0%nat = Some (Seats.Row 1 1 "A1" "booked").
Proof. vm_compute. done. Qed.

(** C5, as the code has it.  The seat list is checked first, then the
    show, then the requested labels one at a time in request order, each
    for existence and then for availability.  So once the labels before
    [s] all are available seats of the show, a label [s] that is no seat
    of the show is answered 400 naming [s], and a label [s] whose seats
    are not available is answered 409 naming [s], whatever follows [s]
    in the request; nothing is written. *)
Theorem validation_in_request_order show_id customer now d :
  run (book_seats show_id customer [] now) None d
    = (Ok (JError seats_must_be_a_list, 400), d) ∧
  (∀ seats_req,
     seats_req ≠ [] →
     (∀ sh, sh ∈ shows d → Shows.id sh ≠ show_id) →
     run (book_seats show_id customer seats_req now) None d
       = (Ok (JError "Show not found", 404), d)) ∧
  (∀ pre s post sh,
     sh ∈ shows d → Shows.id sh = show_id →
     (∀ x, x ∈ pre →
        (∃ r, r ∈ seats d ∧ Seats.show_id r = show_id ∧
              Seats.seat_label r = x) ∧
        (∀ r, r ∈ seats d → Seats.show_id r = show_id →
              Seats.seat_label r = x → Seats.status r = available)) →
     ((∀ r, r ∈ seats d → Seats.show_id r = show_id →
            Seats.seat_label r ≠ s) →
      run (book_seats show_id customer (pre ++ s :: post) now) None d
        = (Ok (JError ("Seat " +:+ s +:+ " does not exist"), 400), d)) ∧
     ((∃ r, r ∈ seats d ∧ Seats.show_id r = show_id ∧
            Seats.seat_label r = s) →
      (∀ r, r ∈ seats d → Seats.show_id r = show_id →
            Seats.seat_label r = s → Seats.status r ≠ available) →
      run (book_seats show_id customer (pre ++ s :: post) now) None d
        = (Ok (JError ("Seat " +:+ s +:+ " is already booked"), 409), d))).
Proof.
  split; [done|]. split.
  { intros seats_req Hne Hno. apply book_seats_no_show; [done|].
    by apply select_price_None. }
  intros pre s post sh Hsh Hid Hpre.
  destruct (select_price_is_Some show_id d sh Hsh Hid) as [price Hprice].
  set (seats_req := (pre ++ s :: post)%list).
  assert (s ∈ seats_req) as Hs by (apply elem_of_app; right; left).
  assert (∀ x, x ∈ pre →
            found_of (select_seats show_id seats_req d) !! x
            = Some available) as Hfound.
  { intros x Hx. destruct (Hpre x Hx) as [Hex Hav].
    apply found_available; [apply elem_of_app; by left | done | done]. }
  split.
  - intros Hmiss. apply (book_seats_rejects _ _ _ _ _ price); [done|].
    unfold seats_req at 2. rewrite rejected_skip by done. simpl.
    by rewrite found_missing.
  - intros Hex Htaken. apply (book_seats_rejects _ _ _ _ _ price); [done|].
    unfold seats_req at 2. rewrite rejected_skip by done. simpl.
    destruct (found_taken show_id seats_req d s Hs Hex Htaken)
      as [st [-> Hst]].
    by rewrite decide_True.
Qed.

Lemma validation_in_request_order_witness :
  run (book_seats 1 "Asha" ["A1"; "Z9"; "A3"] "2024-05-01T10:00:00")
      None Demo.db
    = (Ok (JError "Seat Z9 does not exist", 400), Demo.db).
Proof.
  apply (proj1 (proj2 (proj2 (validation_in_request_order 1 "Asha"
                                "2024-05-01T10:00:00" Demo.db))
                  ["A1"] "Z9" ["A3"] Demo.show ltac:(left) eq_refl
                  ltac:(intros x ->%list_elem_of_singleton;
                        split; [exists (Seats.Row 1 1 "A1" available);
                                split; [left | done]|];
                        intros r Hr ? ?; simpl in Hr;
                        repeat (apply elem_of_cons in Hr as [->|Hr]);
                        try done; by apply elem_of_nil in Hr))).
  intros r Hr ?. simpl in Hr.
  repeat (apply elem_of_cons in Hr as [->|Hr]); try done.
  by apply elem_of_nil in Hr.
Defined.

(** C5 fails when a booked seat is requested before a label that does
    not exist: A3 is booked and Z9 is no seat of show 1, and the request
    ["A3","Z9"] is answered 409 for A3, not 400 for Z9. *)
Lemma booked_seat_reported_before_missing_label :
  run (book_seats 1 "Asha" ["A3"; "Z9"] "2024-05-01T10:00:00") None Demo.db
    = (Ok (JError "Seat A3 is already booked", 409), Demo.db).
Proof. vm_compute. reflexivity. Qed.

(** C6. Whenever [book_seats] answers with a booking, the total it
    reports and stores is the price of the show (of the row of [shows]
    the price query returns) times the number of requested labels. *)
Theorem book_seats_total_price
    show_id customer seats_req now f d booking_id sid labels total code d' :
  run (book_seats show_id customer seats_req now) f d
    = (Ok (JBooked booking_id sid labels total, code), d') →
  ∃ sh b,
    sh ∈ shows d ∧ Shows.id sh = show_id ∧
    select_price show_id d = Some (Shows.price sh) ∧
    labels = seats_req ∧
    total = (Shows.price sh * Z.of_nat (length seats_req))%Z ∧
    last (bookings d') = Some b ∧ Bookings.id b = booking_id ∧
    Bookings.total_price b = total.
Proof.
  intros Hrun.
  destruct (book_seats_run show_id customer seats_req now f d)
    as (resp & d0 & Hrun0 & Hres & _).
  rewrite Hrun in Hrun0. injection Hrun0 as <- <-.
  inversion Hres as [| |p resp ? ? Hrej|e|p ? Hp _]; subst.
  { apply rejected_inv in Hrej as [s [_ [[=]|[=]]]]. }
  destruct (select_price_Some _ _ _ Hp) as [sh (? & ? & <-)].
  eexists sh, _. repeat (split; [done|]).
  rewrite bookings_insert_booking, last_snoc. done.
Qed.

(** The price example of the specification: two seats at 150. *)
Lemma book_seats_total_price_witness :
  ∃ sh b,
    sh ∈ shows Demo.db ∧ Shows.id sh = 1 ∧
    select_price 1 Demo.db = Some (Shows.price sh) ∧
    ["A1"; "A2"] = ["A1"; "A2"] ∧
    300 = (Shows.price sh * Z.of_nat (length ["A1"; "A2"]))%Z ∧
    last (bookings
            (run (book_seats 1 "Asha" ["A1"; "A2"] "2024-05-01T10:00:00")
               None Demo.db).2) = Some b ∧
    Bookings.id b = 1 ∧ Bookings.total_price b = 300.
Proof.
  apply (book_seats_total_price 1 "Asha" ["A1"; "A2"] "2024-05-01T10:00:00"
           None Demo.db 1 1 ["A1"; "A2"] 300 201).
  vm_compute. reflexivity.
Defined.

(** C7. Across any route of the core ([book_seats] and the two read
    handlers), whatever the store does, a seat that is available or
    booked is still a seat afterwards, at the same place in the table; if
    it was booked it is booked; its status is again available or booked;
    and if its status changed, it went from available to booked. *)
Theorem status_only_goes_to_booked req f d (i : nat) r :
  seats d !! i = Some r →
  Seats.status r = available ∨ Seats.status r = booked →
  ∃ r', seats (run (handle req) f d).2 !! i = Some r' ∧
        (Seats.status r = booked → Seats.status r' = booked) ∧
        (Seats.status r' = available ∨ Seats.status r' = booked) ∧
        (Seats.status r' ≠ Seats.status r →
         Seats.status r = available ∧ Seats.status r' = booked).
Proof.
  intros Hi Hst.
  destruct (handle_seats req f d) as [->|(show_id & seats_req & ->)].
  - exists r. by repeat split.
  - exists (booked_by show_id seats_req r).
    rewrite list_lookup_fmap, Hi. split; [done|].
    unfold booked_by. destruct (decide _); simpl; [|by repeat split].
    split; [done|]. split; [by right|]. intros Hch.
    by destruct Hst as [?|Hb]; [|rewrite Hb in Hch].
Qed.

Lemma status_only_goes_to_booked_witness :
  ∃ r', seats (run (handle (POST_book 1 "Asha" ["A1"] "2024-05-01T10:00:00"))
                 None Demo.db).2 !! 0%nat = Some r' ∧
        (available = booked → Seats.status r' = booked) ∧
        (Seats.status r' = available ∨ Seats.status r' = booked) ∧
        (Seats.status r' ≠ available →
         available = available ∧ Seats.status r' = booked).
Proof.
  apply (status_only_goes_to_booked
           (POST_book 1 "Asha" ["A1"] "2024-05-01T10:00:00") None Demo.db
           0%nat (Seats.Row 1 1 "A1" available)).
  - reflexivity.
  - by left.
Defined.

(** C8, as the code has it.  [seats_for_show] has no 404: on a store
    that raises no error it answers 200 with the (label, status) pairs of
    the show's seats ordered by label, and for a show with no seats at
    all (a show that does not exist included) the list is empty.  When
    the store raises, the exception is not caught; nothing is written
    either way. *)
Theorem seats_for_show_answers show_id f d :
  (run (seats_for_show show_id) f d
     = (Ok (JSeats show_id (select_show_seats show_id d), 200), d) ∨
   (f ≠ None ∧ ∃ e, run (seats_for_show show_id) f d = (Raised e, d))) ∧
  run (seats_for_show show_id) None d
    = (Ok (JSeats show_id (select_show_seats show_id d), 200), d) ∧
  StronglySorted by_label (select_show_seats show_id d) ∧
  select_show_seats show_id d ≡ₚ
    ((λ r, (Seats.seat_label r, Seats.status r)) <$>
     filter (λ r, Seats.show_id r = show_id) (seats d)) ∧
  ((∀ r, r ∈ seats d → Seats.show_id r ≠ show_id) →
   select_show_seats show_id d = []).
Proof.
  split; [apply seats_for_show_run|]. split; [done|].
  unfold select_show_seats.
  split; [apply (StronglySorted_merge_sort _)|].
  split; [apply merge_sort_Permutation|].
  intros Hno. by rewrite (filter_none _ (seats d)).
Qed.

Lemma seats_for_show_answers_witness :
  select_show_seats 7 Demo.db = [].
Proof.
  apply (proj2 (proj2 (proj2 (proj2 (seats_for_show_answers 7 None Demo.db))))).
  intros r Hr. simpl in Hr.
  repeat (apply elem_of_cons in Hr as [->|Hr]); try done.
  by apply elem_of_nil in Hr.
Defined.

(** C8 fails on a show without seats: no seat of [Demo.db] belongs to
    show 7, and the answer is 200 with an empty list. *)
Lemma show_without_seats_is_200 :
  run (seats_for_show 7) None Demo.db = (Ok (JSeats 7 [], 200), Demo.db) ∧
  filter (λ r, Seats.show_id r = 7) (seats Demo.db) = [].
Proof. vm_compute. done. Qed.

(** C9. The identifier a successful [book_seats] returns is the [id] of
    the row it appends to [bookings], stamped [now], and is larger than
    every identifier already in the table (and than every one SQLite
    handed out before), so identifiers increase from one booking to the
    next and are never reused.  On a store that raises no error,
    [list_bookings] answers 200 with rows ordered by [created_at], latest
    first: a row is listed exactly when it carries the columns of a
    booking of the table (its [created_at] among them), the title of the
    movie and the name of the cinema of the booking's show; and where the
    keys of the schema resolve, the bookings listed are, each once, all
    the bookings of the table. *)
Theorem booking_ids_fresh_and_listing_latest_first
    show_id customer seats_req now f d booking_id sid labels total code d' :
  run (book_seats show_id customer seats_req now) f d
    = (Ok (JBooked booking_id sid labels total, code), d') →
  (∀ b, b ∈ bookings d → (Bookings.id b < booking_id)%Z) ∧
  (bookings_seq d < booking_id)%Z ∧
  (∃ b, bookings d' = (bookings d ++ [b])%list ∧
        Bookings.id b = booking_id ∧ Bookings.created_at b = now) ∧
  (∀ d0, ∃ rows,
      run list_bookings None d0 = (Ok (JBookings rows, 200), d0) ∧
      StronglySorted by_created_at_desc rows ∧
      rows ≡ₚ join_bookings d0 ∧
      (∀ row,
         row ∈ rows ↔
         ∃ b s m c,
           b ∈ bookings d0 ∧ s ∈ shows d0 ∧ m ∈ movies d0 ∧
           c ∈ cinemas d0 ∧
           Bookings.show_id b = Shows.id s ∧
           Shows.movie_id s = Movies.id m ∧
           Shows.cinema_id s = Cinemas.id c ∧
           row = Joined.Row (Bookings.id b) (Bookings.show_id b)
                   (Bookings.customer_name b) (Bookings.seats b)
                   (Bookings.total_price b) (Bookings.created_at b)
                   (Movies.title m) (Cinemas.name c)) ∧
      (keys_resolve d0 → booking_of <$> rows ≡ₚ bookings d0)).
Proof.
  intros Hrun.
  destruct (book_seats_run show_id customer seats_req now f d)
    as (resp & d1 & Hrun1 & Hres & _).
  rewrite Hrun in Hrun1. injection Hrun1 as <- <-.
  inversion Hres as [| |p resp ? ? Hrej|e|p ? Hp _]; subst.
  { apply rejected_inv in Hrej as [s [_ [[=]|[=]]]]. }
  split; [apply next_rowid_fresh|].
  split; [unfold next_rowid; lia|].
  split; [eexists; by rewrite bookings_insert_booking|].
  intros d0. exists (select_bookings d0). split; [done|].
  unfold select_bookings.
  split; [apply (StronglySorted_merge_sort _)|].
  split; [apply merge_sort_Permutation|].
  split.
  - intros row. rewrite merge_sort_Permutation.
    apply elem_of_join_bookings.
  - intros Hkeys.
    etrans; [apply fmap_Permutation, merge_sort_Permutation|].
    by rewrite join_bookings_records.
Qed.

Lemma booking_ids_fresh_and_listing_latest_first_witness :
  (∀ b, b ∈ bookings Demo.db → (Bookings.id b < 1)%Z) ∧
  (bookings_seq Demo.db < 1)%Z ∧
  (∃ b, bookings
          (run (book_seats 1 "Asha" ["A1"] "2024-05-01T10:00:00")
             None Demo.db).2 = (bookings Demo.db ++ [b])%list ∧
        Bookings.id b = 1 ∧ Bookings.created_at b = "2024-05-01T10:00:00") ∧
  (∀ d0, ∃ rows,
      run list_bookings None d0 = (Ok (JBookings rows, 200), d0) ∧
      StronglySorted by_created_at_desc rows ∧
      rows ≡ₚ join_bookings d0 ∧
      (∀ row,
         row ∈ rows ↔
         ∃ b s m c,
           b ∈ bookings d0 ∧ s ∈ shows d0 ∧ m ∈ movies d0 ∧
           c ∈ cinemas d0 ∧
           Bookings.show_id b = Shows.id s ∧
           Shows.movie_id s = Movies.id m ∧
           Shows.cinema_id s = Cinemas.id c ∧
           row = Joined.Row (Bookings.id b) (Bookings.show_id b)
                   (Bookings.customer_name b) (Bookings.seats b)
                   (Bookings.total_price b) (Bookings.created_at b)
                   (Movies.title m) (Cinemas.name c)) ∧
      (keys_resolve d0 → booking_of <$> rows ≡ₚ bookings d0)).
Proof.
  apply (booking_ids_fresh_and_listing_latest_first 1 "Asha" ["A1"]
           "2024-05-01T10:00:00" None Demo.db 1 1 ["A1"] 150 201).
  vm_compute. reflexivity.
Defined.

(** C10. [book_seats] writes nothing but statuses of requested seats of
    its show and the booking log: whatever the store does, the tables
    [cinemas], [movies] and [shows] are as before, [seats] has the same
    rows with the same [id], [show_id] and [seat_label], and a seat of
    another show, or whose label is not requested, is untouched. *)
Theorem book_seats_frame show_id customer seats_req now f d :
  let d' := (run (book_seats show_id customer seats_req now) f d).2 in
  cinemas d' = cinemas d ∧ movies d' = movies d ∧ shows d' = shows d ∧
  length (seats d') = length (seats d) ∧
  (∀ (i : nat) r, seats d !! i = Some r →
     ∃ r', seats d' !! i = Some r' ∧ Seats.id r' = Seats.id r ∧
           Seats.show_id r' = Seats.show_id r ∧
           Seats.seat_label r' = Seats.seat_label r ∧
           (Seats.show_id r ≠ show_id ∨ Seats.seat_label r ∉ seats_req →
            r' = r)).
Proof.
  destruct (book_seats_run show_id customer seats_req now f d)
    as (resp & d' & Hrun & Hres & _).
  rewrite Hrun. simpl.
  destruct (book_seats_result_seats _ _ _ _ _ _ _ Hres)
    as (-> & -> & -> & [-> | ->]).
  - repeat (split; [done|]). intros i r Hi. by exists r.
  - repeat (split; [done|]). split; [by rewrite length_fmap|].
    intros i r Hi. exists (booked_by show_id seats_req r).
    rewrite list_lookup_fmap, Hi. split; [done|].
    unfold booked_by. destruct (decide _) as [[? ?]|]; [|done].
    repeat (split; [done|]). intros [?|?]; done.
Qed.

(** ** The handlers at work on [Demo.db] *)

(** The rollback example of the specification: A1 is available, A3 is
    booked; the request for both is refused and A1 stays available. *)
Example book_seats_all_or_nothing :
  run (book_seats 1 "Asha" ["A1"; "A3"] "2024-05-01T10:00:00") None Demo.db
    = (Ok (JError "Seat A3 is already booked", 409), Demo.db).
Proof. vm_compute. reflexivity. Qed.

Example book_seats_unknown_seat :
  run (book_seats 1 "Asha" ["A1"; "Z9"] "2024-05-01T10:00:00") None Demo.db
    = (Ok (JError "Seat Z9 does not exist", 400), Demo.db).
Proof. vm_compute. reflexivity. Qed.

Example book_seats_unknown_show :
  run (book_seats 5 "Asha" ["A1"] "2024-05-01T10:00:00") None Demo.db
    = (Ok (JError "Show not found", 404), Demo.db).
Proof. vm_compute. reflexivity. Qed.

(** A label is looked up among the seats of the requested show only:
    show 2 has an A1 but no A2. *)
Example book_seats_other_show :
  run (book_seats 2 "Asha" ["A2"] "2024-05-01T10:00:00") None Demo.db
    = (Ok (JError "Seat A2 does not exist", 400), Demo.db).
Proof. vm_compute. reflexivity. Qed.

(** When the commit itself raises, the flipped seats and the inserted
    booking are dropped with the transaction. *)
Example book_seats_commit_fails :
  run (book_seats 1 "Asha" ["A1"] "2024-05-01T10:00:00")
      (Some (5%nat, "database is locked")) Demo.db
    = (Ok (JDatabaseError "database is locked", 500), Demo.db).
Proof. vm_compute. reflexivity. Qed.

(** Two calls one after the other for the same seat: the first wins,
    the second is told the seat is booked and writes nothing. *)
Example book_seats_twice :
  let d1 := (run (book_seats 1 "Asha" ["A1"; "A2"] "2024-05-01T10:00:00")
               None Demo.db).2 in
  run (book_seats 1 "Ravi" ["A2"] "2024-05-01T10:05:00") None d1
    = (Ok (JError "Seat A2 is already booked", 409), d1).
Proof. vm_compute. reflexivity. Qed.

(** Two bookings made at 10:00 and then at 09:30 by the clock: the
    listing goes by [created_at], not by [id]. *)
Example list_bookings_by_created_at :
  let d1 := (run (book_seats 1 "Asha" ["A1"] "2024-05-01T10:00:00")
               None Demo.db).2 in
  let d2 := (run (book_seats 1 "Ravi" ["A2"] "2024-05-01T09:30:00")
               None d1).2 in
  run list_bookings None d2
    = (Ok (JBookings
             [Joined.Row 1 1 "Asha" "A1" 150 "2024-05-01T10:00:00"
                "Flight of Fancy" "Innovative Filmplex";
              Joined.Row 2 1 "Ravi" "A2" 150 "2024-05-01T09:30:00"
                "Flight of Fancy" "Innovative Filmplex"], 200), d2).
Proof. vm_compute. reflexivity. Qed.

Example seats_for_show_sorted :
  run (seats_for_show 1) None
      (set_seats Demo.db
         [Seats.Row 1 1 "B1" available; Seats.Row 2 1 "A2" booked;
          Seats.Row 3 1 "A10" available; Seats.Row 4 2 "A1" available])
    = (Ok (JSeats 1 [("A10", "available"); ("A2", "booked");
                     ("B1", "available")], 200),
       set_seats Demo.db
         [Seats.Row 1 1 "B1" available; Seats.Row 2 1 "A2" booked;
          Seats.Row 3 1 "A10" available; Seats.Row 4 2 "A1" available]).
Proof. vm_compute. reflexivity. Qed.

(** * Beyond the claims *)

(** ** What a 201 tells about the database before *)

Lemma book_seats_result_201 d show_id customer seats_req now resp d' :
  book_seats_result d show_id customer seats_req now resp d' →
  resp.2 = 201 →
  ∃ price,
    seats_req ≠ [] ∧ select_price show_id d = Some price ∧
    rejected (found_of (select_seats show_id seats_req d)) seats_req = None ∧
    resp = (JBooked (next_rowid d) show_id seats_req
              (price * Z.of_nat (length seats_req)), 201) ∧
    d' = (insert_booking show_id customer (String.concat "," seats_req)
            (price * Z.of_nat (length seats_req)) now
            (book_all show_id seats_req d)).2.
Proof.
  destruct 1 as [| |price resp ? ? Hrej| |price]; try done.
  - intros Hcode. by destruct (rejected_status _ _ _ Hrej) as [Hst|Hst];
      rewrite Hst in Hcode.
  - intros _. by exists price.
Qed.

(** X2. [book_seats] answers 201 only for a non-empty list, a show
    that is in [shows], and labels each of which some seat of the show
    carried with status available before the call, whatever the store
    does. *)
Theorem booked_only_what_was_available
    show_id customer seats_req now f d resp d' :
  run (book_seats show_id customer seats_req now) f d = (Ok resp, d') →
  resp.2 = 201 →
  seats_req ≠ [] ∧
  (∃ sh, sh ∈ shows d ∧ Shows.id sh = show_id) ∧
  (∀ s, s ∈ seats_req →
        ∃ r, r ∈ seats d ∧ Seats.show_id r = show_id ∧
             Seats.seat_label r = s ∧ Seats.status r = available).
Proof.
  intros Hrun Hcode.
  destruct (book_seats_run show_id customer seats_req now f d)
    as (resp0 & d0 & Hrun0 & Hres & _).
  rewrite Hrun in Hrun0. injection Hrun0 as <- <-.
  destruct (book_seats_result_201 _ _ _ _ _ _ _ Hres Hcode)
    as (price & Hne & Hprice & Hrej & _).
  split; [done|]. split.
  - apply select_price_Some in Hprice as [sh (? & ? & _)]. by exists sh.
  - intros s Hs.
    pose proof (rejected_None_inv _ _ s Hrej Hs) as Hfound.
    apply found_of_Some, elem_of_select_seats in Hfound
      as [r (? & ? & ? & ? & _)]. by exists r.
Qed.

Lemma booked_only_what_was_available_witness :
  ["A1"; "A2"] ≠ [] ∧
  (∃ sh, sh ∈ shows Demo.db ∧ Shows.id sh = 1) ∧
  (∀ s, s ∈ ["A1"; "A2"] →
        ∃ r, r ∈ seats Demo.db ∧ Seats.show_id r = 1 ∧
             Seats.seat_label r = s ∧ Seats.status r = available).
Proof.
  apply (booked_only_what_was_available 1 "Asha" ["A1"; "A2"]
           "2024-05-01T10:00:00" (Some (9%nat, "disk I/O error")) Demo.db
           (JBooked 1 1 ["A1"; "A2"] 300, 201)
           (run (book_seats 1 "Asha" ["A1"; "A2"] "2024-05-01T10:00:00")
              None Demo.db).2).
  - vm_compute. reflexivity.
  - reflexivity.
Defined.

(** ** Storage errors and the answer *)

Lemma book_seats_result_functional d show_id customer seats_req now
    resp1 d1 resp2 d2 :
  book_seats_result d show_id customer seats_req now resp1 d1 →
  book_seats_result d show_id customer seats_req now resp2 d2 →
  resp1.2 ≠ 500 → resp2.2 ≠ 500 →
  resp1 = resp2 ∧ d1 = d2.
Proof.
  destruct 1; destruct 1; try done; try congruence; intros _ _.
  - replace resp0 with resp by congruence. done.
  - replace price0 with price by congruence. done.
Qed.

(** X3. A storage error can only turn the answer into a 500: a call
    that answers anything else although the store had an error in stock
    gives the response and leaves the database of the call on a store
    without errors, and on a store without errors [book_seats] never
    answers 500. *)
Theorem storage_error_only_makes_500
    show_id customer seats_req now f d resp d' :
  run (book_seats show_id customer seats_req now) f d = (Ok resp, d') →
  (f = None → resp.2 ≠ 500) ∧
  (resp.2 ≠ 500 →
   run (book_seats show_id customer seats_req now) None d = (Ok resp, d')).
Proof.
  intros Hrun.
  destruct (book_seats_run show_id customer seats_req now f d)
    as (resp0 & d0 & Hrun0 & Hres & Hcode).
  rewrite Hrun in Hrun0. injection Hrun0 as <- <-.
  split; [done|]. intros H500.
  destruct (book_seats_run show_id customer seats_req now None d)
    as (resp1 & d1 & -> & Hres1 & Hcode1).
  by destruct (book_seats_result_functional _ _ _ _ _ _ _ _ _ Hres1 Hres
                 (Hcode1 eq_refl) H500) as [-> ->].
Qed.

(** The fault is set for the seventh statement; the call makes six. *)
Lemma storage_error_only_makes_500_witness :
  (Some (6%nat, "disk I/O error") = None →
   (JBooked 1 1 ["A1"] 150, 201).2 ≠ 500) ∧
  ((JBooked 1 1 ["A1"] 150, 201).2 ≠ 500 →
   run (book_seats 1 "Asha" ["A1"] "2024-05-01T10:00:00") None Demo.db
     = (Ok (JBooked 1 1 ["A1"] 150, 201),
        (run (book_seats 1 "Asha" ["A1"] "2024-05-01T10:00:00")
           (Some (6%nat, "disk I/O error")) Demo.db).2)).
Proof.
  apply (storage_error_only_makes_500 1 "Asha" ["A1"] "2024-05-01T10:00:00"
           (Some (6%nat, "disk I/O error")) Demo.db).
  vm_compute. reflexivity.
Defined.

(** ** The order of the labels in a request *)

Lemma select_seats_Permutation show_id l1 l2 d :
  l1 ≡ₚ l2 → select_seats show_id l1 d = select_seats show_id l2 d.
Proof.
  intros Hp. unfold select_seats. f_equal. apply list_filter_iff.
  intros r. by rewrite Hp.
Qed.

Lemma rejected_None_iff found seats_req :
  rejected found seats_req = None ↔
  ∀ s, s ∈ seats_req → found !! s = Some available.
Proof.
  split; [intros H s; by apply rejected_None_inv | apply rejected_None].
Qed.

Lemma booked_by_Permutation show_id l1 l2 r :
  l1 ≡ₚ l2 → booked_by show_id l1 r = booked_by show_id l2 r.
Proof.
  intros Hp. unfold booked_by.
  destruct (decide (_ ∧ _ ∈ l1)) as [[? H1]|H1];
    destruct (decide (_ ∧ _ ∈ l2)) as [[? H2]|H2]; try done.
  - destruct H2. split; [done|]. by rewrite <- Hp.
  - destruct H1. split; [done|]. by rewrite Hp.
Qed.

(** X4. On a store that raises no error, whether a request is booked,
    what it costs, and what the [seats] table holds afterwards do not
    depend on the order in which the request lists its labels. *)
Theorem label_order_is_immaterial
    show_id customer seats1 seats2 now d resp1 d1 resp2 d2 :
  seats1 ≡ₚ seats2 →
  run (book_seats show_id customer seats1 now) None d = (Ok resp1, d1) →
  run (book_seats show_id customer seats2 now) None d = (Ok resp2, d2) →
  (resp1.2 = 201 ↔ resp2.2 = 201) ∧
  seats d1 = seats d2 ∧
  (∀ id1 sid1 l1 total1 id2 sid2 l2 total2,
     resp1 = (JBooked id1 sid1 l1 total1, 201) →
     resp2 = (JBooked id2 sid2 l2 total2, 201) →
     id1 = id2 ∧ total1 = total2).
Proof.
  intros Hp Hrun1 Hrun2.
  destruct (book_seats_run show_id customer seats1 now None d)
    as (r1 & d1' & Hrun1' & Hres1 & Hok1).
  rewrite Hrun1 in Hrun1'. injection Hrun1' as <- <-.
  destruct (book_seats_run show_id customer seats2 now None d)
    as (r2 & d2' & Hrun2' & Hres2 & Hok2).
  rewrite Hrun2 in Hrun2'. injection Hrun2' as <- <-.
  specialize (Hok1 eq_refl). specialize (Hok2 eq_refl).
  assert (∀ ra da rb db la lb,
            la ≡ₚ lb →
            book_seats_result d show_id customer la now ra da →
            book_seats_result d show_id customer lb now rb db →
            rb.2 ≠ 500 →
            ra.2 = 201 → rb.2 = 201 ∧ seats da = seats db ∧
            ∀ id1 sid1 l1 total1 id2 sid2 l2 total2,
              ra = (JBooked id1 sid1 l1 total1, 201) →
              rb = (JBooked id2 sid2 l2 total2, 201) →
              id1 = id2 ∧ total1 = total2) as Hone.
  { intros ra da rb db la lb Hperm Ha Hb Hok Hcode.
    destruct (book_seats_result_201 _ _ _ _ _ _ _ Ha Hcode)
      as (price & Hne & Hprice & Hrej & -> & ->).
    assert (rejected (found_of (select_seats show_id lb d)) lb = None)
      as Hrejb.
    { apply rejected_None_iff. intros s Hs.
      rewrite <- (select_seats_Permutation show_id la lb d Hperm).
      apply (rejected_None_inv _ la); [done | by rewrite Hperm]. }
    destruct Hb as [->| |? ? ? ? Hrej'| |price' ? Hprice' _].
    - by apply Permutation_nil_r in Hperm.
    - congruence.
    - congruence.
    - done.
    - replace price' with price by congruence.
      split; [done|]. split.
      + simpl. rewrite !seats_book_all. apply list_fmap_ext.
        intros i r _. by apply booked_by_Permutation.
      + intros ? ? ? ? ? ? ? ? [= <- _ _ <-] [= <- _ _ <-].
        by rewrite (Permutation_length Hperm). }
  destruct (decide (resp1.2 = 201)) as [H1|H1].
  - destruct (Hone _ _ _ _ _ _ Hp Hres1 Hres2 Hok2 H1) as (H2 & Hs & Ht).
    split; [by split|]. by split.
  - assert (resp2.2 ≠ 201) as H2.
    { intros H2. symmetry in Hp.
      by destruct (Hone _ _ _ _ _ _ Hp Hres2 Hres1 Hok1 H2) as (? & _). }
    split; [by split|]. split.
    + destruct (book_seats_result_code _ _ _ _ _ _ _ Hres1) as [?| ->];
        [done|].
      by destruct (book_seats_result_code _ _ _ _ _ _ _ Hres2) as [?| ->].
    + intros ? ? ? ? ? ? ? ? ->. by destruct H1.
Qed.

Lemma label_order_is_immaterial_witness :
  ((JBooked 1 1 ["A1"; "A2"] 300, 201).2 = 201 ↔
   (JBooked 1 1 ["A2"; "A1"] 300, 201).2 = 201) ∧
  seats (run (book_seats 1 "Asha" ["A1"; "A2"] "2024-05-01T10:00:00")
           None Demo.db).2
  = seats (run (book_seats 1 "Asha" ["A2"; "A1"] "2024-05-01T10:00:00")
             None Demo.db).2 ∧
  (∀ id1 sid1 l1 total1 id2 sid2 l2 total2,
     (JBooked 1 1 ["A1"; "A2"] 300, 201) = (JBooked id1 sid1 l1 total1, 201) →
     (JBooked 1 1 ["A2"; "A1"] 300, 201) = (JBooked id2 sid2 l2 total2, 201) →
     id1 = id2 ∧ total1 = total2).
Proof.
  apply (label_order_is_immaterial 1 "Asha" ["A1"; "A2"] ["A2"; "A1"]
           "2024-05-01T10:00:00" Demo.db).
  - apply perm_swap.
  - vm_compute. reflexivity.
  - vm_compute. reflexivity.
Defined.

(** ** Reading back what was booked *)

Lemma elem_of_select_show_seats show_id d s st :
  (s, st) ∈ select_show_seats show_id d ↔
  ∃ r, r ∈ seats d ∧ Seats.show_id r = show_id ∧
       Seats.seat_label r = s ∧ Seats.status r = st.
Proof.
  unfold select_show_seats. rewrite merge_sort_Permutation.
  rewrite list_elem_of_fmap. split.
  - intros [r [[= -> ->] [? ?]%list_elem_of_filter]]. by exists r.
  - intros [r (? & ? & <- & <-)]. exists r.
    split; [done|]. by apply list_elem_of_filter.
Qed.

(** X5. After a 201, GET /shows/<id>/seats on the same show lists
    every requested label as booked, and lists none of them as
    available. *)
Theorem booked_seats_read_back
    show_id customer seats_req now f d resp d' s :
  run (book_seats show_id customer seats_req now) f d = (Ok resp, d') →
  resp.2 = 201 →
  s ∈ seats_req →
  ∃ rows,
    run (seats_for_show show_id) None d' = (Ok (JSeats show_id rows, 200), d') ∧
    (s, booked) ∈ rows ∧ (s, available) ∉ rows.
Proof.
  intros Hrun Hcode Hs.
  destruct (book_seats_run show_id customer seats_req now f d)
    as (resp0 & d0 & Hrun0 & Hres & _).
  rewrite Hrun in Hrun0. injection Hrun0 as <- <-.
  destruct (book_seats_result_booked _ _ _ _ _ _ _ Hres Hcode)
    as [Hrej Hseats].
  exists (select_show_seats show_id d'). split; [done|].
  rewrite !elem_of_select_show_seats, Hseats. split.
  - pose proof (rejected_None_inv _ _ s Hrej Hs) as Hfound.
    apply found_of_Some, elem_of_select_seats in Hfound
      as [r (Hr & Hshow & Hlabel & _)].
    exists (booked_by show_id seats_req r).
    split; [by apply list_elem_of_fmap_2|].
    unfold booked_by. rewrite decide_True; [done|]. by rewrite Hlabel.
  - intros [r' ([r [-> _]]%list_elem_of_fmap & Hshow & Hlabel & Hst)].
    destruct (booked_by_key show_id seats_req r) as [Hk1 Hk2].
    rewrite Hk1 in Hshow. rewrite Hk2 in Hlabel.
    unfold booked_by in Hst. rewrite decide_True in Hst; [done|].
    by rewrite Hlabel.
Qed.

Lemma booked_seats_read_back_witness :
  ∃ rows,
    run (seats_for_show 1) None
        (run (book_seats 1 "Asha" ["A1"; "A2"] "2024-05-01T10:00:00")
           None Demo.db).2
    = (Ok (JSeats 1 rows, 200),
       (run (book_seats 1 "Asha" ["A1"; "A2"] "2024-05-01T10:00:00")
          None Demo.db).2) ∧
    ("A2", booked) ∈ rows ∧ ("A2", available) ∉ rows.
Proof.
  apply (booked_seats_read_back 1 "Asha" ["A1"; "A2"] "2024-05-01T10:00:00"
           None Demo.db (JBooked 1 1 ["A1"; "A2"] 300, 201)).
  - vm_compute. reflexivity.
  - reflexivity.
  - right. left.
Defined.

(** X6. After a 201 on a database whose shows name a movie and a
    cinema that are in the tables, GET /bookings lists the new booking:
    a row with the identifier that was returned, the show, the customer,
    the labels joined by commas, the total that was returned and the
    timestamp of the call. *)
Theorem booking_read_back
    show_id customer seats_req now f d booking_id sid labels total code d' :
  (∀ s, s ∈ shows d →
        (∃ m, m ∈ movies d ∧ Movies.id m = Shows.movie_id s) ∧
        (∃ c, c ∈ cinemas d ∧ Cinemas.id c = Shows.cinema_id s)) →
  run (book_seats show_id customer seats_req now) f d
    = (Ok (JBooked booking_id sid labels total, code), d') →
  ∃ rows row,
    run list_bookings None d' = (Ok (JBookings rows, 200), d') ∧
    row ∈ rows ∧
    Joined.id row = booking_id ∧ Joined.show_id row = show_id ∧
    Joined.customer_name row = customer ∧
    Joined.seats row = String.concat "," seats_req ∧
    Joined.total_price row = total ∧ Joined.created_at row = now.
Proof.
  intros Hkeys Hrun.
  destruct (book_seats_run show_id customer seats_req now f d)
    as (resp0 & d0 & Hrun0 & Hres & _).
  rewrite Hrun in Hrun0. injection Hrun0 as <- <-.
  inversion Hres as [| |p resp ? ? Hrej|e|p ? Hp _]; subst.
  { apply rejected_inv in Hrej as [s [_ [[=]|[=]]]]. }
  destruct (select_price_Some _ _ _ Hp) as [sh (Hsh & Hid & _)].
  destruct (Hkeys sh Hsh) as [[m [Hm Hmid]] [c [Hc Hcid]]].
  destruct (book_all_frame sid labels d) as (Hc' & Hm' & Hs' & _).
  match goal with
  | |- context [run list_bookings None ?x] => exists (select_bookings x)
  end.
  eexists (Joined.Row _ _ _ _ _ _ _ _).
  split; [done|]. split; [|done].
  unfold select_bookings. rewrite merge_sort_Permutation.
  apply elem_of_join_bookings.
  eexists (Bookings.Row _ _ _ _ _ _), sh, m, c.
  rewrite bookings_insert_booking. simpl. rewrite Hc', Hm', Hs'.
  split; [apply elem_of_app; right; by left|].
  repeat (split; [done|]). by rewrite Hid.
Qed.

Lemma booking_read_back_witness :
  ∃ rows row,
    run list_bookings None
        (run (book_seats 1 "Asha" ["A1"; "A2"] "2024-05-01T10:00:00")
           None Demo.db).2
    = (Ok (JBookings rows, 200),
       (run (book_seats 1 "Asha" ["A1"; "A2"] "2024-05-01T10:00:00")
          None Demo.db).2) ∧
    row ∈ rows ∧
    Joined.id row = 1 ∧ Joined.show_id row = 1 ∧
    Joined.customer_name row = "Asha" ∧
    Joined.seats row = String.concat "," ["A1"; "A2"] ∧
    Joined.total_price row = 300 ∧
    Joined.created_at row = "2024-05-01T10:00:00".
Proof.
  apply (booking_read_back 1 "Asha" ["A1"; "A2"] "2024-05-01T10:00:00"
           None Demo.db 1 1 ["A1"; "A2"] 300 201).
  - intros s Hs. simpl in Hs.
    repeat (apply elem_of_cons in Hs as [->|Hs]);
      [| |by apply elem_of_nil in Hs].
    + split; [exists Demo.movie | exists Demo.cinema]; by split; [left|].
    + split; [exists Demo.movie | exists Demo.cinema]; by split; [left|].
  - vm_compute. reflexivity.
Defined.

(** ** The catalogue handlers *)

Lemma list_cinemas_run d :
  run list_cinemas None d = (Ok (JCinemas (cinemas d), 200), d).
Proof. reflexivity. Qed.

Lemma list_movies_run d :
  run list_movies None d = (Ok (JMovies (movies d), 200), d).
Proof. reflexivity. Qed.


#[export] Instance by_show_time_trans : Transitive by_show_time.
Proof. intros x y z. unfold by_show_time. apply text_le_trans. Qed.

#[export] Instance by_show_time_total : Total by_show_time.
Proof. intros x y. unfold by_show_time. apply text_le_total. Qed.

Lemma elem_of_join_shows cinema_id d row :
  row ∈ join_shows cinema_id d ↔
  ∃ s m, s ∈ shows d ∧ m ∈ movies d ∧ Shows.cinema_id s = cinema_id ∧
         Shows.movie_id s = Movies.id m ∧
         row = Listed.Row (Shows.id s) (Shows.show_time s) (Shows.screen s)
                 (Shows.price s) (Movies.title m).
Proof.
  unfold join_shows. rewrite list_elem_of_bind. split.
  - intros (s & Hrow & [? ?]%list_elem_of_filter).
    apply list_elem_of_bind in Hrow as (m & Hrow & [? ?]%list_elem_of_filter).
    apply list_elem_of_singleton in Hrow. by exists s, m.
  - intros (s & m & ? & ? & ? & ? & ->).
    exists s. split; [|by apply list_elem_of_filter].
    apply list_elem_of_bind. exists m.
    split; [|by apply list_elem_of_filter].
    by apply list_elem_of_singleton.
Qed.

Lemma join_shows_ids cinema_id d :
  keys_resolve d →
  Listed.id <$> join_shows cinema_id d =
  Shows.id <$> filter (λ s, Shows.cinema_id s = cinema_id) (shows d).
Proof.
  intros (_ & Hm & _ & _ & Hsh). unfold join_shows.
  assert (∀ s, s ∈ filter (λ s, Shows.cinema_id s = cinema_id) (shows d) →
               s ∈ shows d) as Hsub
    by (by intros s [_ ?]%list_elem_of_filter).
  induction (filter _ (shows d)) as [|s l IH]; [done|].
  rewrite bind_cons, fmap_app, fmap_cons, IH
    by (intros s' ?; apply Hsub; by right).
  f_equal.
  destruct (Hsh s) as [[m [Hmin Hmid]] _]; [apply Hsub; left|].
  rewrite (filter_key_unique Movies.id (movies d) _ m Hm Hmin Hmid).
  by rewrite bind_singleton.
Qed.

(** X7. GET /cinemas/<id>/shows has no 404 either.  On a store that
    raises no error it answers 200 with one row for each pair of a show
    of the cinema and a movie with the show's [movie_id], earliest
    [show_time] first (in TEXT order); a show whose movie is not in
    [movies] is left out, and a cinema without shows, or that does not
    exist, gets the empty list.  Where the keys of the schema resolve,
    every show of the cinema is listed once.  When the store raises, the
    exception is not caught; nothing is written either way. *)
Theorem shows_for_cinema_listing cinema_id f d :
  (run (shows_for_cinema cinema_id) f d
     = (Ok (JShows (select_cinema_shows cinema_id d), 200), d) ∨
   (f ≠ None ∧ ∃ e, run (shows_for_cinema cinema_id) f d = (Raised e, d))) ∧
  run (shows_for_cinema cinema_id) None d
    = (Ok (JShows (select_cinema_shows cinema_id d), 200), d) ∧
  StronglySorted by_show_time (select_cinema_shows cinema_id d) ∧
  (∀ row,
     row ∈ select_cinema_shows cinema_id d ↔
     ∃ s m, s ∈ shows d ∧ m ∈ movies d ∧ Shows.cinema_id s = cinema_id ∧
            Shows.movie_id s = Movies.id m ∧
            row = Listed.Row (Shows.id s) (Shows.show_time s)
                    (Shows.screen s) (Shows.price s) (Movies.title m)) ∧
  ((∀ s, s ∈ shows d → Shows.cinema_id s ≠ cinema_id) →
   select_cinema_shows cinema_id d = []) ∧
  (keys_resolve d →
   Listed.id <$> select_cinema_shows cinema_id d ≡ₚ
   Shows.id <$> filter (λ s, Shows.cinema_id s = cinema_id) (shows d)).
Proof.
  split.
  { unfold run, shows_for_cinema. rewrite bind_unfold.
    destruct (query_stepped (select_cinema_shows cinema_id) d None f)
      as [[Hf [e He]]|[f' [Hf He]]]; rewrite He.
    - right. split; [done|]. by exists e.
    - by left. }
  split; [done|]. unfold select_cinema_shows.
  split; [apply (StronglySorted_merge_sort _)|].
  split; [intros row; rewrite merge_sort_Permutation;
          apply elem_of_join_shows|].
  split.
  - intros Hno. unfold join_shows.
    by rewrite (filter_none _ (shows d)) by done.
  - intros Hkeys. rewrite <- (join_shows_ids cinema_id d Hkeys).
    apply fmap_Permutation, merge_sort_Permutation.
Qed.

Lemma demo_keys_resolve : keys_resolve Demo.db.
Proof.
  split; [by apply (bool_decide_unpack _)|].
  split; [by apply (bool_decide_unpack _)|].
  split; [by apply (bool_decide_unpack _)|].
  split.
  - intros b Hb. by apply elem_of_nil in Hb.
  - intros s Hs. simpl in Hs.
    repeat (apply elem_of_cons in Hs as [->|Hs]);
      [| |by apply elem_of_nil in Hs];
      (split; [exists Demo.movie | exists Demo.cinema]; by split; [left|]).
Qed.

Lemma shows_for_cinema_listing_witness :
  select_cinema_shows 3 Demo.db = [] ∧
  Listed.id <$> select_cinema_shows 1 Demo.db ≡ₚ
  Shows.id <$> filter (λ s, Shows.cinema_id s = 1) (shows Demo.db).
Proof.
  split.
  - apply (proj1 (proj2 (proj2 (proj2 (proj2
             (shows_for_cinema_listing 3 None Demo.db)))))).
    intros s Hs. simpl in Hs.
    repeat (apply elem_of_cons in Hs as [->|Hs]); try done.
    by apply elem_of_nil in Hs.
  - apply (proj2 (proj2 (proj2 (proj2 (proj2
             (shows_for_cinema_listing 1 None Demo.db)))))).
    apply demo_keys_resolve.
Defined.

(** ** One request of a sequence *)

(** What a request leaves behind, by whether it was a booking that got
    its 201. *)
Lemma handle_step req f d o d' :
  run (handle req) f d = (o, d') →
  match winner req o with
  | Some (show_id, seats_req) =>
      ∃ customer now price,
        req = POST_book show_id customer seats_req now ∧
        seats_req ≠ [] ∧ select_price show_id d = Some price ∧
        rejected (found_of (select_seats show_id seats_req d)) seats_req
          = None ∧
        d' = (insert_booking show_id customer (String.concat "," seats_req)
                (price * Z.of_nat (length seats_req)) now
                (book_all show_id seats_req d)).2
  | None => d' = d
  end.
Proof.
  destruct req as [show_id customer seats_req now|show_id|]; simpl.
  - destruct (book_seats_run show_id customer seats_req now f d)
      as (resp & d0 & -> & Hres & _).
    intros [= <- <-]. destruct resp as [body code]. simpl.
    destruct (decide (code = 201)) as [Hcode|Hcode].
    + destruct (book_seats_result_201 _ _ _ _ _ _ _ Hres Hcode)
        as (price & ? & ? & ? & _ & ?).
      by exists customer, now, price.
    + by destruct (book_seats_result_code _ _ _ _ _ _ _ Hres).
  - destruct (seats_for_show_run show_id f d) as [->|[_ [e ->]]];
      by intros [= <- <-].
  - destruct (list_bookings_run f d) as [->|[_ [e ->]]];
      by intros [= <- <-].
Qed.

Lemma serve_cons req f rest d :
  serve ((req, f) :: rest) d =
  ((run (handle req) f d).1 :: (serve rest (run (handle req) f d).2).1,
   (serve rest (run (handle req) f d).2).2).
Proof.
  simpl. destruct (run (handle req) f d) as [o d1]. simpl.
  by destruct (serve rest d1).
Qed.

Lemma winners_cons req f rest o os :
  winners ((req, f) :: rest) (o :: os) =
  (option_list (winner req o) ++ winners rest os)%list.
Proof. simpl. by destruct (winner req o). Qed.

(** ** A well-formed database stays well-formed *)

Lemma booked_by_keys show_id seats_req (l : list Seats.row) :
  (λ r, (Seats.show_id r, Seats.seat_label r)) <$>
    (booked_by show_id seats_req <$> l) =
  (λ r, (Seats.show_id r, Seats.seat_label r)) <$> l.
Proof.
  rewrite <- list_fmap_compose. apply list_fmap_ext. intros i r _. simpl.
  by destruct (booked_by_key show_id seats_req r) as [-> ->].
Qed.

Lemma handle_well_formed req f d :
  well_formed d → well_formed (run (handle req) f d).2.
Proof.
  intros (Hkeys & Hids & Hlabels & Hstatus).
  destruct (run (handle req) f d) as [o d'] eqn:Hrun.
  apply handle_step in Hrun. simpl.
  destruct (winner req o) as [[show_id seats_req]|]; [|by subst].
  destruct Hrun as (customer & now & price & _ & _ & Hprice & _ & ->).
  destruct (book_all_frame show_id seats_req d) as (Hc & Hm & Hs & Hb & _).
  destruct Hkeys as (K1 & K2 & K3 & K4 & K5).
  split; [|split; [|split]].
  - unfold keys_resolve. rewrite bookings_insert_booking. simpl.
    rewrite Hc, Hm, Hs. repeat (split; [done|]). split; [|done].
    intros b [Hb'|Hb']%elem_of_app; [by apply K4|].
    apply list_elem_of_singleton in Hb' as ->. simpl.
    apply select_price_Some in Hprice as [sh (? & ? & _)]. by exists sh.
  - rewrite bookings_insert_booking, fmap_app. simpl.
    apply NoDup_app. split; [done|]. split; [|apply NoDup_singleton].
    intros i [b [-> Hb']]%list_elem_of_fmap Heq%list_elem_of_singleton.
    apply next_rowid_fresh in Hb'. simpl in Heq. lia.
  - simpl. by rewrite seats_book_all, booked_by_keys.
  - simpl. rewrite seats_book_all.
    intros r' [r [-> Hr]]%list_elem_of_fmap. unfold booked_by.
    destruct (decide _); [by right | by apply Hstatus].
Qed.

(** X8. The requests of the core keep a database well-formed through
    any sequence of them and any storage errors: primary keys stay
    distinct, every booking names a show that is in [shows] (and every
    show a movie and a cinema), booking identifiers stay distinct, a
    label keeps naming one seat of a show, and every seat stays
    available or booked. *)
Theorem serve_keeps_well_formed reqs d :
  well_formed d → well_formed (serve reqs d).2.
Proof.
  revert d. induction reqs as [|[req f] rest IH]; intros d Hwf; [done|].
  rewrite serve_cons. simpl. by apply IH, handle_well_formed.
Qed.

Lemma demo_well_formed : well_formed Demo.db.
Proof.
  split; [apply demo_keys_resolve|].
  split; [by apply (bool_decide_unpack _)|].
  split; [by apply (bool_decide_unpack _)|].
  intros r Hr. simpl in Hr.
  repeat (apply elem_of_cons in Hr as [->|Hr]);
    [by left | by left | by right | by left | by apply elem_of_nil in Hr].
Qed.

Lemma serve_keeps_well_formed_witness :
  well_formed
    (serve [(POST_book 1 "Asha" ["A1"; "A2"] "2024-05-01T10:00:00", None);
            (POST_book 1 "Ravi" ["A2"] "2024-05-01T10:05:00",
             Some (3%nat, "database is locked"));
            (GET_bookings, None)] Demo.db).2.
Proof. apply serve_keeps_well_formed, demo_well_formed. Defined.

(** ** No seat is booked twice *)

Lemma taken_booked_by show_id s sid l d d' :
  seats d' = booked_by sid l <$> seats d →
  taken show_id s d → taken show_id s d'.
Proof.
  intros Hseats [[r (Hr & Hshow & Hlabel)] Hall]. unfold taken.
  rewrite Hseats. split.
  - exists (booked_by sid l r). split; [by apply list_elem_of_fmap_2|].
    by destruct (booked_by_key sid l r) as [-> ->].
  - intros r' [r0 [-> Hr0]]%list_elem_of_fmap.
    destruct (booked_by_key sid l r0) as [-> ->]. intros ? ?.
    unfold booked_by. destruct (decide _); [done | by apply Hall].
Qed.

Lemma taken_step show_id s req f d o d' :
  taken show_id s d →
  run (handle req) f d = (o, d') →
  taken show_id s d' ∧
  (∀ l, winner req o = Some (show_id, l) → s ∉ l).
Proof.
  intros Htaken Hrun. apply handle_step in Hrun.
  destruct (winner req o) as [[sid l]|]; [|by subst].
  destruct Hrun as (customer & now & price & _ & _ & _ & Hrej & ->).
  split.
  - apply (taken_booked_by _ _ sid l d); [|done].
    simpl. apply seats_book_all.
  - intros l' [= -> ->] Hs.
    pose proof (rejected_None_inv _ _ s Hrej Hs) as Hfound.
    destruct Htaken as [Hex Hall].
    destruct (found_taken show_id l' d s Hs Hex) as [st [Hst Hne]].
    { intros r ? ? ?. by rewrite Hall. }
    congruence.
Qed.

Lemma taken_serve show_id s reqs d :
  taken show_id s d →
  Forall (λ w, w.1 = show_id → s ∉ w.2)
         (winners reqs (serve reqs d).1).
Proof.
  revert d. induction reqs as [|[req f] rest IH]; intros d Htaken.
  { constructor. }
  rewrite serve_cons. simpl fst. rewrite winners_cons.
  destruct (run (handle req) f d) as [o d1] eqn:Hrun. simpl.
  destruct (taken_step _ _ _ _ _ _ _ Htaken Hrun) as [Htaken1 Hwin].
  apply Forall_app. split; [|by apply IH].
  destruct (winner req o) as [[sid l]|]; constructor; [|constructor].
  simpl. intros ->. by apply Hwin.
Qed.

Lemma winner_takes req f d o d' show_id l s :
  run (handle req) f d = (o, d') →
  winner req o = Some (show_id, l) → s ∈ l → taken show_id s d'.
Proof.
  intros Hrun Hwin Hs. apply handle_step in Hrun. rewrite Hwin in Hrun.
  destruct Hrun as (customer & now & price & _ & _ & _ & Hrej & ->).
  pose proof (rejected_None_inv _ _ s Hrej Hs) as Hfound.
  apply found_of_Some, elem_of_select_seats in Hfound
    as [r (Hr & Hshow & Hlabel & _)].
  unfold taken. simpl. rewrite seats_book_all. split.
  - exists (booked_by show_id l r). split; [by apply list_elem_of_fmap_2|].
    by destruct (booked_by_key show_id l r) as [-> ->].
  - intros r' [r0 [-> _]]%list_elem_of_fmap.
    destruct (booked_by_key show_id l r0) as [-> ->]. intros ? Hl.
    unfold booked_by. rewrite decide_True; [done|]. by rewrite Hl.
Qed.

Lemma booked_by_all_cons w ws r :
  booked_by_all (w :: ws) r = booked_by_all ws (booked_by w.1 w.2 r).
Proof. reflexivity. Qed.

Lemma serve_seats reqs d :
  seats (serve reqs d).2 =
  booked_by_all (winners reqs (serve reqs d).1) <$> seats d.
Proof.
  revert d. induction reqs as [|[req f] rest IH]; intros d.
  { simpl. by rewrite list_fmap_id. }
  rewrite serve_cons. simpl fst. simpl snd. rewrite winners_cons, IH.
  destruct (run (handle req) f d) as [o d1] eqn:Hrun.
  apply handle_step in Hrun. simpl fst. simpl snd.
  destruct (winner req o) as [[sid l]|]; [|by subst].
  destruct Hrun as (customer & now & price & _ & _ & _ & _ & ->).
  simpl. rewrite seats_book_all, <- list_fmap_compose. done.
Qed.

Lemma booked_by_all_status (ws : list (Z * list string)) r :
  Seats.id (booked_by_all ws r) = Seats.id r ∧
  Seats.show_id (booked_by_all ws r) = Seats.show_id r ∧
  Seats.seat_label (booked_by_all ws r) = Seats.seat_label r ∧
  (Seats.status (booked_by_all ws r) = booked ↔
   Seats.status r = booked ∨
   ∃ w, w ∈ ws ∧ Seats.show_id r = w.1 ∧ Seats.seat_label r ∈ w.2) ∧
  (Seats.status (booked_by_all ws r) ≠ booked → booked_by_all ws r = r).
Proof.
  revert r. induction ws as [|w ws IH]; intros r.
  { repeat (split; [done|]). split; [|done]. split; [by left|].
    intros [?|(w & Hw & _)]; [done | by apply elem_of_nil in Hw]. }
  rewrite booked_by_all_cons.
  destruct (IH (booked_by w.1 w.2 r)) as (-> & -> & -> & Hiff & Hsame).
  destruct (booked_by_key w.1 w.2 r) as [Hk1 Hk2].
  assert (Seats.id (booked_by w.1 w.2 r) = Seats.id r) as ->
    by (unfold booked_by; by destruct (decide _)).
  rewrite Hk1, Hk2. repeat (split; [done|]).
  rewrite Hk1, Hk2 in Hiff. clear Hk1 Hk2 IH.
  unfold booked_by in *.
  destruct (decide (Seats.show_id r = w.1 ∧ Seats.seat_label r ∈ w.2))
    as [[? ?]|Hno].
  - split; [split|].
    + intros _. right. exists w. split; [left | done].
    + intros _. apply Hiff. by left.
    + intros Hst. destruct Hst. apply Hiff. by left.
  - split; [split|done].
    + intros [?|(w' & Hw' & ? & ?)]%Hiff; [by left|].
      right. exists w'. split; [by right | done].
    + intros [?|(w' & [->|Hw']%elem_of_cons & ? & ?)]; apply Hiff.
      * by left.
      * by destruct Hno.
      * right. by exists w'.
Qed.

Lemma winners_disjoint reqs d :
  ForallOrdPairs (λ w1 w2, w1.1 = w2.1 → ∀ s, s ∈ w1.2 → s ∉ w2.2)
    (winners reqs (serve reqs d).1).
Proof.
  revert d. induction reqs as [|[req f] rest IH]; intros d.
  { constructor. }
  rewrite serve_cons. simpl fst. rewrite winners_cons.
  destruct (run (handle req) f d) as [o d1] eqn:Hrun. simpl fst. simpl snd.
  destruct (winner req o) as [[sid l]|] eqn:Hwin; [|apply IH].
  change (ForallOrdPairs
            (λ w1 w2 : Z * list string, w1.1 = w2.1 → ∀ s, s ∈ w1.2 → s ∉ w2.2)
            ((sid, l) :: winners rest (serve rest d1).1)).
  apply FOP_cons; [|apply IH].
  apply Forall_forall. intros w Hw Hsid s Hs. simpl in *.
  pose proof (winner_takes _ _ _ _ _ _ _ s Hrun Hwin Hs) as Htaken.
  pose proof (taken_serve sid s rest d1 Htaken) as Hall.
  rewrite Forall_forall in Hall. by apply (Hall w).
Qed.

(** X9. Requests served one after the other never book a seat twice,
    whatever the database they start from and whatever the store does.
    Afterwards [seats] has the same rows; a seat is booked exactly when it
    was booked before or a booking request that was answered 201 named its
    show and label, and a seat that is not booked is as it was.  Two
    requests answered 201 for the same show have no label in common. *)
Theorem no_seat_booked_twice reqs d os d' :
  serve reqs d = (os, d') →
  length (seats d') = length (seats d) ∧
  (∀ (i : nat) r,
     seats d !! i = Some r →
     ∃ r', seats d' !! i = Some r' ∧ Seats.id r' = Seats.id r ∧
           Seats.show_id r' = Seats.show_id r ∧
           Seats.seat_label r' = Seats.seat_label r ∧
           (Seats.status r' = booked ↔
            Seats.status r = booked ∨
            ∃ w, w ∈ winners reqs os ∧ Seats.show_id r = w.1 ∧
                 Seats.seat_label r ∈ w.2) ∧
           (Seats.status r' ≠ booked → r' = r)) ∧
  ForallOrdPairs (λ w1 w2, w1.1 = w2.1 → ∀ s, s ∈ w1.2 → s ∉ w2.2)
    (winners reqs os).
Proof.
  intros Hserve.
  pose proof (serve_seats reqs d) as Hseats.
  pose proof (winners_disjoint reqs d) as Hdisj.
  rewrite Hserve in Hseats, Hdisj. simpl in Hseats, Hdisj.
  rewrite Hseats. split; [by rewrite length_fmap|]. split; [|done].
  intros i r Hi. exists (booked_by_all (winners reqs os) r).
  rewrite list_lookup_fmap, Hi. split; [done|].
  apply booked_by_all_status.
Qed.

(** Asha books A1 and A2, Ravi's request for A2 is refused, and Mira
    books A1 of the late show. *)
Lemma no_seat_booked_twice_witness :
  let reqs :=
    [(POST_book 1 "Asha" ["A1"; "A2"] "2024-05-01T10:00:00", None);
     (POST_book 1 "Ravi" ["A2"] "2024-05-01T10:05:00", None);
     (GET_show_seats 1, None);
     (POST_book 2 "Mira" ["A1"] "2024-05-01T10:06:00", None)] in
  winners reqs (serve reqs Demo.db).1 = [(1, ["A1"; "A2"]); (2, ["A1"])] ∧
  ForallOrdPairs (λ w1 w2, w1.1 = w2.1 → ∀ s, s ∈ w1.2 → s ∉ w2.2)
    [(1, ["A1"; "A2"]); (2, ["A1"])].
Proof.
  split; [vm_compute; reflexivity|].
  apply (proj2 (proj2
    (no_seat_booked_twice
       [(POST_book 1 "Asha" ["A1"; "A2"] "2024-05-01T10:00:00", None);
        (POST_book 1 "Ravi" ["A2"] "2024-05-01T10:05:00", None);
        (GET_show_seats 1, None);
        (POST_book 2 "Mira" ["A1"] "2024-05-01T10:06:00", None)]
       Demo.db _ _ ltac:(vm_compute; reflexivity)))).
Defined.

(** ** The booking log of a sequence of requests *)

Lemma insert_booking_frame show_id customer csv total now seats_req d :
  let d' := (insert_booking show_id customer csv total now
               (book_all show_id seats_req d)).2 in
  cinemas d' = cinemas d ∧ movies d' = movies d ∧ shows d' = shows d.
Proof.
  destruct (book_all_frame show_id seats_req d) as (Hc & Hm & Hs & _).
  simpl. by rewrite Hc, Hm, Hs.
Qed.

Lemma serve_log reqs d :
  cinemas (serve reqs d).2 = cinemas d ∧
  movies (serve reqs d).2 = movies d ∧
  shows (serve reqs d).2 = shows d ∧
  ∃ new,
    bookings (serve reqs d).2 = (bookings d ++ new)%list ∧
    (λ b, (Bookings.show_id b, Bookings.seats b)) <$> new =
      (λ w, (w.1, String.concat "," w.2)) <$>
        winners reqs (serve reqs d).1 ∧
    (∀ b n, b ∈ bookings d → n ∈ new → (Bookings.id b < Bookings.id n)%Z) ∧
    StronglySorted (λ a b, (Bookings.id a < Bookings.id b)%Z) new.
Proof.
  revert d. induction reqs as [|[req f] rest IH]; intros d.
  { repeat (split; [done|]). exists []. rewrite app_nil_r.
    repeat (split; [done|]). split; [|constructor].
    intros b n _ Hn. by apply elem_of_nil in Hn. }
  rewrite serve_cons. simpl fst. simpl snd. rewrite winners_cons.
  destruct (run (handle req) f d) as [o d1] eqn:Hrun. simpl fst. simpl snd.
  destruct (IH d1) as (Hc & Hm & Hs & new & Hb & Hnew & Hlt & Hsorted).
  rewrite Hc, Hm, Hs, Hb. clear Hc Hm Hs Hb IH.
  apply handle_step in Hrun.
  destruct (winner req o) as [[sid l]|].
  2:{ subst d1. repeat (split; [done|]). by exists new. }
  destruct Hrun as (customer & now & price & _ & _ & _ & _ & Hd1).
  set (total := (price * Z.of_nat (length l))%Z) in *.
  assert (bookings d1 =
          (bookings d ++ [Bookings.Row (next_rowid d) sid customer
                            (String.concat "," l) total now])%list) as Hb1
    by (rewrite Hd1; apply bookings_insert_booking).
  destruct (insert_booking_frame sid customer (String.concat "," l) total
              now l d) as (Hc & Hm & Hs).
  rewrite <- Hd1 in Hc, Hm, Hs. rewrite Hc, Hm, Hs, Hb1. clear Hd1 Hc Hm Hs.
  repeat (split; [done|]).
  set (row := Bookings.Row (next_rowid d) sid customer (String.concat "," l)
                total now) in *.
  exists (row :: new). split; [by rewrite <- app_assoc|].
  split; [by rewrite fmap_cons, Hnew|]. split.
  - intros b n Hb [->|Hn]%elem_of_cons.
    + by apply next_rowid_fresh.
    + apply Hlt; [|done]. rewrite Hb1. apply elem_of_app. by left.
  - constructor; [done|]. apply Forall_forall. intros n Hn.
    apply (Hlt row); [|done]. rewrite Hb1. apply elem_of_app. right. by left.
Qed.

(** X10. Requests served one after the other only ever append to
    [bookings], one row for each booking request answered 201, in the
    order of the requests, with the show and the comma-joined labels of
    the request and an identifier larger than every earlier one; the rows
    that were there stay as they are, and so do [cinemas], [movies] and
    [shows]. *)
Theorem serve_appends_one_booking_per_201 reqs d os d' :
  serve reqs d = (os, d') →
  cinemas d' = cinemas d ∧ movies d' = movies d ∧ shows d' = shows d ∧
  ∃ new,
    bookings d' = (bookings d ++ new)%list ∧
    (λ b, (Bookings.show_id b, Bookings.seats b)) <$> new =
      (λ w, (w.1, String.concat "," w.2)) <$> winners reqs os ∧
    (∀ b n, b ∈ bookings d → n ∈ new → (Bookings.id b < Bookings.id n)%Z) ∧
    StronglySorted (λ a b, (Bookings.id a < Bookings.id b)%Z) new.
Proof.
  intros Hserve. pose proof (serve_log reqs d) as H.
  by rewrite Hserve in H.
Qed.

Lemma serve_appends_one_booking_per_201_witness :
  let reqs :=
    [(POST_book 1 "Asha" ["A1"; "A2"] "2024-05-01T10:00:00", None);
     (POST_book 1 "Ravi" ["A2"] "2024-05-01T10:05:00", None);
     (POST_book 2 "Mira" ["A1"] "2024-05-01T10:06:00",
      Some (5%nat, "database is locked"));
     (POST_book 2 "Mira" ["A1"] "2024-05-01T10:07:00", None)] in
  cinemas (serve reqs Demo.db).2 = cinemas Demo.db ∧
  movies (serve reqs Demo.db).2 = movies Demo.db ∧
  shows (serve reqs Demo.db).2 = shows Demo.db ∧
  ∃ new,
    bookings (serve reqs Demo.db).2 = (bookings Demo.db ++ new)%list ∧
    (λ b, (Bookings.show_id b, Bookings.seats b)) <$> new =
      (λ w, (w.1, String.concat "," w.2)) <$>
        winners reqs (serve reqs Demo.db).1 ∧
    (∀ b n, b ∈ bookings Demo.db → n ∈ new →
            (Bookings.id b < Bookings.id n)%Z) ∧
    StronglySorted (λ a b, (Bookings.id a < Bookings.id b)%Z) new.
Proof.
  intros reqs. apply (serve_appends_one_booking_per_201 reqs Demo.db).
  by destruct (serve reqs Demo.db).
Defined.

(** ** Inserting into an AUTOINCREMENT table *)

Section insert_many.
Context {R T : Type} (id_of : R → Z) (mk : Z → T → R).
Hypothesis id_of_mk : ∀ rowid v, id_of (mk rowid v) = rowid.

Lemma insert_many_cons v values seq table :
  insert_many id_of mk (v :: values) seq table =
  let rowid := (Z.max seq (foldr Z.max 0 (id_of <$> table)) + 1)%Z in
  insert_many id_of mk values rowid (table ++ [mk rowid v]).
Proof. reflexivity. Qed.


(** The columns that do not depend on the rowid are the values given,
    after those of the rows that were there. *)
Lemma insert_many_fields {B} (proj : R → B) (g : T → B) values seq table :
  (∀ rowid v, proj (mk rowid v) = g v) →
  proj <$> (insert_many id_of mk values seq table).2 =
  ((proj <$> table) ++ (g <$> values))%list.
Proof.
  intros Hproj. revert seq table.
  induction values as [|v values IH]; intros seq table.
  { simpl. by rewrite app_nil_r. }
  rewrite insert_many_cons. cbv zeta. rewrite IH, fmap_app, <- app_assoc.
  simpl. by rewrite Hproj.
Qed.

Lemma insert_many_length values seq table :
  length (insert_many id_of mk values seq table).2 =
  (length table + length values)%nat.
Proof.
  rewrite <- (length_fmap (λ _, ())),
    (insert_many_fields (λ _, ()) (λ _, ())) by done.
  by rewrite length_app, !length_fmap.
Qed.

(** The rows that were there stay, in their place. *)
Lemma insert_many_prefix values seq table :
  table `prefix_of` (insert_many id_of mk values seq table).2.
Proof.
  revert seq table. induction values as [|v values IH]; intros seq table.
  { done. }
  rewrite insert_many_cons. cbv zeta. etrans; [|apply IH].
  by apply prefix_app_r.
Qed.


End insert_many.

(** ** [init_db] *)

Lemma init_db_skips t st :
  cinemas (tables st) ≠ [] → init_db t st = st.
Proof.
  intros Hne. unfold init_db. rewrite decide_False; [done|].
  destruct (cinemas (tables st)); [done | simpl; lia].
Qed.

(** The tables after seeding, each as the insertion that made it. *)
Lemma init_db_seeds t st :
  cinemas (tables st) = [] →
  ∃ cs ms ss ts,
    cs = (insert_many Cinemas.id cinema_of sample_cinemas
            (cinemas_seq st) (cinemas (tables st))).2 ∧
    ms = (insert_many Movies.id movie_of sample_movies
            (movies_seq st) (movies (tables st))).2 ∧
    ss = (insert_many Shows.id show_of
            (sample_shows t (Cinemas.id <$> cs) (Movies.id <$> ms))
            (shows_seq st) (shows (tables st))).2 ∧
    ts = (insert_many Seats.id seat_of (sample_seats (Shows.id <$> ss))
            (seats_seq st) (seats (tables st))).2 ∧
    tables (init_db t st) =
      Database cs ms ss ts (bookings (tables st)) (bookings_seq (tables st)).
Proof.
  intros Hempty. unfold init_db.
  rewrite decide_True by (by rewrite Hempty).
  fold cinema_of movie_of show_of seat_of.
  destruct (insert_many Cinemas.id cinema_of _ _ _) as [cseq cs].
  destruct (insert_many Movies.id movie_of _ _ _) as [mseq ms].
  destruct (insert_many Shows.id show_of _ _ _) as [sseq ss] eqn:Hss.
  destruct (insert_many Seats.id seat_of _ _ _) as [tseq ts] eqn:Hts.
  exists cs, ms, ss, ts. simpl. by rewrite Hss, Hts.
Qed.

Lemma init_db_cinemas_not_empty t st :
  cinemas (tables (init_db t st)) ≠ [].
Proof.
  destruct (cinemas (tables st)) as [|c cs] eqn:Hc.
  - destruct (init_db_seeds t st Hc) as (cs & ms & ss & ts & -> & _ & _ & _ & ->).
    cbn [cinemas]. intros Hnil. apply (f_equal length) in Hnil.
    rewrite insert_many_length in Hnil. simpl in Hnil. lia.
  - rewrite init_db_skips; by rewrite Hc.
Qed.

(** X11. Running [init_db] again changes nothing, whatever the clock
    says the second time: the sample data is inserted only into a
    database without cinemas, and afterwards there are cinemas.  The
    bookings are never touched. *)
Theorem init_db_idempotent t1 t2 st :
  init_db t2 (init_db t1 st) = init_db t1 st ∧
  bookings (tables (init_db t1 st)) = bookings (tables st).
Proof.
  split; [apply init_db_skips, init_db_cinemas_not_empty|].
  destruct (cinemas (tables st)) as [|c cs] eqn:Hc.
  - by destruct (init_db_seeds t1 st Hc) as (? & ? & ? & ? & _ & _ & _ & _ & ->).
  - rewrite init_db_skips; [done | by rewrite Hc].
Qed.

(** ** The sample data *)













(** After the seeding above, the first cinema has rowid 8, and a
    booking of two seats of its first show costs 300. *)
Example book_seats_after_init_db :
  let t := λ h : Z, "2024-05-01T" +:+ pretty h in
  let st := Store (Database [] [] [] [] [] 0) 7 0 0 0 in
  let d' := tables (init_db t st) in
  Cinemas.id <$> cinemas d' = [8; 9; 10] ∧
  (run (book_seats 1 "Asha" ["C3"; "C4"] "2024-05-01T10:00:00") None d').1
    = Ok (JBooked 1 1 ["C3"; "C4"] 300, 201).
Proof. vm_compute. done. Qed.

Lemma later_call_for_booked_seat_is_refused_witness :
  (JError "Seat A3 is already booked", 409).2 ≠ 201 ∧
  (run (book_seats 1 "Ravi" ["A3"; "A2"] "2024-05-01T10:05:00")
     (Some (7%nat, "disk I/O error"))
     (run (book_seats 1 "Asha" ["A1"; "A2"] "2024-05-01T10:00:00")
        None Demo.db).2).2
  = (run (book_seats 1 "Asha" ["A1"; "A2"] "2024-05-01T10:00:00")
       None Demo.db).2.
Proof.
  apply (later_call_for_booked_seat_is_refused 1 "A2"
           "Asha" ["A1"; "A2"] "2024-05-01T10:00:00" None Demo.db
           (JBooked 1 1 ["A1"; "A2"] 300, 201) _
           "Ravi" ["A3"; "A2"] "2024-05-01T10:05:00"
           (Some (7%nat, "disk I/O error"))
           (JError "Seat A3 is already booked", 409)).
  - vm_compute. reflexivity.
  - reflexivity.
  - right. left.
  - right. left.
  - vm_compute. reflexivity.
Defined.
